(** * idc_index.client: the IDCClient handle, its data store and its queries

    A shallow embedding of [src/idc_index/client.py].  Python objects live
    in a heap and are passed by reference; every method is a computation in
    a state-and-exception monad over the interpreter's world (heap, class
    attributes, file system, network, the embedded query engine).  An
    assignment made before an exception is raised stays made, as in Python.

    Assertions are modelled as executed (the interpreter's default mode).
    Calls to [logger] have no effect on any value below and are left out.
    The file ends in an unfinished [def summarize()]; it has no body and is
    not modelled. *)

From Stdlib Require Import Ascii String.
From stdpp Require Import base option list strings gmap.

Open Scope string_scope.
Open Scope nat_scope.

(** ** pandas values *)

(** The float64 scalars of pandas.  Rounding is outside this development:
    the type of scalars, the conversion [astype(float)] of one text cell
    ([None]: the text is no number, pandas raises ValueError) and the
    aggregation ["sum"] over the float64 values of one group are taken as
    an interface. *)
Class Float64 := {
  float64 : Type;
  float64_eq_dec :: EqDecision float64;
  to_float : string → option float64;
  agg_sum : list float64 → float64;
}.

(** Exceptions, by Python class. *)
Inductive exn :=
  | AssertionError (msg : string)
  | AttributeError (name : string)
  | KeyError (key : string)
  | TypeError
  | ValueError
  | DuckDBError
  | URLError
  | FileNotFoundError
  | ParserError.

Inductive Result (A : Type) :=
  | Ok (a : A)
  | Raise (e : exn).
Arguments Ok {A} a.
Arguments Raise {A} e.

Section Model.
Context `{F : Float64}.

Inductive cell :=
  | Text (s : string)
  | Num (x : float64).

#[export] Instance cell_eq_dec : EqDecision cell.
Proof. solve_decision. Defined.

(** A DataFrame: named columns and rows of cells, in row order. *)
Record DataFrame := {
  columns : list string;
  rows : list (list cell);
}.

(** What [pd.read_csv(path, dtype=str)] yields: every cell is text, or
    missing (NaN). *)
Record RawTable := {
  raw_columns : list string;
  raw_rows : list (list (option string));
}.

(** Position of a column label (the first, should a label repeat). *)
Definition col_index (name : string) (cols : list string) : option nat :=
  fst <$> list_find (λ c, c = name) cols.

Definition cell_at (i : nat) (r : list cell) : cell := default (Text "") (r !! i).

(** [pd.Series.unique]: the distinct values, in order of first appearance. *)
Fixpoint unique (l : list cell) : list cell :=
  match l with
  | [] => []
  | x :: l' => x :: filter (λ y, y ≠ x) (unique l')
  end.

Fixpoint nums (l : list cell) : option (list float64) :=
  match l with
  | [] => Some []
  | Num x :: l' => (x ::.) <$> nums l'
  | Text _ :: _ => None
  end.

Fixpoint texts (l : list cell) : option (list string) :=
  match l with
  | [] => Some []
  | Text s :: l' => (s ::.) <$> texts l'
  | Num _ :: _ => None
  end.

(** The aggregation ["sum"] over one group of one column: float64 values
    are summed, text values are concatenated, a mixed group is a
    TypeError. *)
Definition sum_cells (l : list cell) : Result cell :=
  match nums l with
  | Some xs => Ok (Num (agg_sum xs))
  | None =>
    match texts l with
    | Some ss => Ok (Text (String.concat "" ss))
    | None => Raise TypeError
    end
  end.

(** One row of the summary frame: the two aggregated columns. *)
Record summary_row := {
  Modality : list cell;
  series_size_MB : cell;
}.

(** The summary frame, indexed by collection id.  pandas orders the groups
    by key; here they stand in order of first appearance, and the frame is
    read by key only ([summary_lookup]). *)
Definition Summary := list (cell * summary_row).

Definition summary_lookup (c : cell) (s : Summary) : option summary_row :=
  match list_find (λ kv : cell * summary_row, kv.1 = c) s with
  | Some (_, kv) => Some kv.2
  | None => None
  end.

(** The rows of one group. *)
Definition group_rows (ki : nat) (k : cell) (rs : list (list cell)) : list (list cell) :=
  filter (λ r, cell_at ki r = k) rs.

Definition agg_group (mi si : nat) (g : list (list cell)) : Result summary_row :=
  match sum_cells (cell_at si <$> g) with
  | Ok total => Ok {| Modality := unique (cell_at mi <$> g); series_size_MB := total |}
  | Raise e => Raise e
  end.

Fixpoint agg_groups (ki mi si : nat) (rs : list (list cell)) (keys : list cell)
  : Result Summary :=
  match keys with
  | [] => Ok []
  | k :: keys' =>
    match agg_group mi si (group_rows ki k rs) with
    | Ok row =>
      match agg_groups ki mi si rs keys' with
      | Ok s => Ok ((k, row) :: s)
      | Raise e => Raise e
      end
    | Raise e => Raise e
    end
  end.

(** [df.groupby("collection_id").agg({"Modality": pd.Series.unique,
    "series_size_MB": "sum"})]. *)
Definition groupby_agg (df : DataFrame) : Result Summary :=
  match col_index "collection_id" (columns df) with
  | None => Raise (KeyError "collection_id")
  | Some ki =>
    match col_index "Modality" (columns df) with
    | None => Raise (KeyError "Modality")
    | Some mi =>
      match col_index "series_size_MB" (columns df) with
      | None => Raise (KeyError "series_size_MB")
      | Some si =>
        agg_groups ki mi si (rows df) (unique (cell_at ki <$> rows df))
      end
    end
  end.

(** ** Objects, the heap and the world *)

(** A reference to a Python object: its position in the heap. *)
Definition loc := nat.

(** The instance attributes of an IDCClient object; [None]: the attribute
    is not set.  The methods assign [data], [collection_summary] and
    [s5cmd_path]; they read, and nowhere assign, [index]. *)
Record IDCClient := {
  data : option loc;
  index : option loc;
  collection_summary : option Summary;
  s5cmd_path : option string;
}.

(** The instance as [__init__] receives it: no attribute set. *)
Definition bare : IDCClient :=
  {| data := None; index := None; collection_summary := None; s5cmd_path := None |}.

Definition with_data (v : loc) (c : IDCClient) : IDCClient :=
  {| data := Some v; index := index c;
     collection_summary := collection_summary c; s5cmd_path := s5cmd_path c |}.

Definition with_collection_summary (v : Summary) (c : IDCClient) : IDCClient :=
  {| data := data c; index := index c;
     collection_summary := Some v; s5cmd_path := s5cmd_path c |}.

Definition with_s5cmd_path (v : string) (c : IDCClient) : IDCClient :=
  {| data := data c; index := index c;
     collection_summary := collection_summary c; s5cmd_path := Some v |}.

Inductive pyobj :=
  | ODataFrame (df : DataFrame)
  | OClient (c : IDCClient).

Inductive file :=
  | CsvArchive (t : RawTable)
  | OtherFile.

(** Everything a method can read or change. *)
Record World := {
  heap : list pyobj;
  (** the attribute [index] of the class object; the class body defines
      none, so it is [None] unless set from outside the module *)
  cls_index : option loc;
  (** the file system, by path *)
  fs : gmap string file;
  (** what the release URL serves; [None]: the download fails *)
  remote : option file;
  (** the URLs requested so far, latest first *)
  requests : list string;
  (** the directory of the module, and [platform.system()] *)
  current_dir : string;
  system : string;
  (** whether [subprocess.run(["s5cmd", ...])] finds the executable *)
  s5cmd_on_path : bool;
  (** [duckdb.query(q).to_df()] with the frame bound to the name [index]
      in the calling scope ([None]: the object bound is no frame);
      [None]: DuckDB raises *)
  duckdb_query : string → option DataFrame → option DataFrame;
}.

Definition with_heap (h : list pyobj) (w : World) : World :=
  {| heap := h; cls_index := cls_index w; fs := fs w; remote := remote w;
     requests := requests w; current_dir := current_dir w; system := system w;
     s5cmd_on_path := s5cmd_on_path w; duckdb_query := duckdb_query w |}.

Definition retrieved (url path : string) (f : file) (w : World) : World :=
  {| heap := heap w; cls_index := cls_index w; fs := <[path := f]> (fs w);
     remote := remote w; requests := url :: requests w;
     current_dir := current_dir w; system := system w;
     s5cmd_on_path := s5cmd_on_path w; duckdb_query := duckdb_query w |}.

Definition failed_request (url : string) (w : World) : World :=
  {| heap := heap w; cls_index := cls_index w; fs := fs w;
     remote := remote w; requests := url :: requests w;
     current_dir := current_dir w; system := system w;
     s5cmd_on_path := s5cmd_on_path w; duckdb_query := duckdb_query w |}.

(** ** The monad of methods: state, and exceptions that keep the state *)

Definition M (A : Type) : Type := World → Result A * World.

Definition ret {A} (a : A) : M A := λ w, (Ok a, w).

Definition raise {A} (e : exn) : M A := λ w, (Raise e, w).

Definition bind {A B} (m : M A) (k : A → M B) : M B := λ w,
  match m w with
  | (Ok a, w') => k a w'
  | (Raise e, w') => (Raise e, w')
  end.

Notation "'let!' x ':=' m 'in' k" := (bind m (λ x, k))
  (at level 10, x name, m at level 100, k at level 200).
Notation "m ';;;' k" := (bind m (λ _, k))
  (at level 100, k at level 200, right associativity).

(** [try: body except: handler] *)
Definition try_except {A} (body : M A) (handler : exn → M A) : M A := λ w,
  match body w with
  | (Ok a, w') => (Ok a, w')
  | (Raise e, w') => handler e w'
  end.

(** [assert cond, msg] *)
Definition assert (cond : bool) (msg : string) : M unit :=
  if cond then ret tt else raise (AssertionError msg).

(** A new object on the heap. *)
Definition alloc (o : pyobj) : M loc := λ w,
  (Ok (length (heap w)), with_heap (heap w ++ [o]) w).

Definition frame_at (l : loc) (w : World) : option DataFrame :=
  match heap w !! l with
  | Some (ODataFrame df) => Some df
  | _ => None
  end.

Definition client_at (l : loc) (w : World) : option IDCClient :=
  match heap w !! l with
  | Some (OClient c) => Some c
  | _ => None
  end.

(** [isinstance(v, pd.DataFrame)] *)
Definition isinstance_DataFrame (v : loc) : M bool := λ w,
  (Ok (bool_decide (is_Some (frame_at v w))), w).

(** The receiver of a method.  Methods are called on IDCClient objects; a
    receiver of another type is outside the model and reported as a
    TypeError. *)
Definition receiver (self : loc) : M IDCClient := λ w,
  match client_at self w with
  | Some c => (Ok c, w)
  | None => (Raise TypeError, w)
  end.

(** [self.<attr> = v] *)
Definition setattr (self : loc) (f : IDCClient → IDCClient) : M unit :=
  let! c := receiver self in
  λ w, (Ok tt, with_heap (<[self := OClient (f c)]> (heap w)) w).

(** [self.index]: the instance attribute, else the class attribute, else
    AttributeError. *)
Definition getattr_index (self : loc) : M loc :=
  let! c := receiver self in
  match index c with
  | Some v => ret v
  | None => λ w,
    match cls_index w with
    | Some v => (Ok v, w)
    | None => (Raise (AttributeError "index"), w)
    end
  end.

(** [self.data] *)
Definition getattr_data (self : loc) : M loc :=
  let! c := receiver self in
  match data c with
  | Some v => ret v
  | None => raise (AttributeError "data")
  end.

(** [v.groupby("collection_id").agg({...})] on the object at [v]; an
    IDCClient has no attribute [groupby]. *)
Definition groupby_agg_at (v : loc) : M Summary := λ w,
  match frame_at v w with
  | Some df =>
    match groupby_agg df with
    | Ok s => (Ok s, w)
    | Raise e => (Raise e, w)
    end
  | None => (Raise (AttributeError "groupby"), w)
  end.

(** ** Module constants *)

Definition idc_version : string := "v17".
Definition release_version : string := "0.2.10".
Definition aws_endpoint_url : string := "https://s3.amazonaws.com".
Definition gcp_endpoint_url : string := "https://storage.googleapis.com".
Definition latest_idc_index_csv_url : string :=
  "https://github.com/ImagingDataCommons/idc-index/releases/download/"
  +:+ release_version +:+ "/idc_index.csv.zip".

(** ** The operating system and the libraries, as the methods use them *)

(** [os.path.join(a, b)] for a directory [a] and a file name [b]. *)
Definition os_path_join (a b : string) : M string := λ w,
  (Ok (a +:+ (if bool_decide (system w = "Windows") then "\" else "/") +:+ b), w).

(** [os.path.dirname(os.path.abspath(__file__))] *)
Definition module_dir : M string := λ w, (Ok (current_dir w), w).

Definition platform_system : M string := λ w, (Ok (system w), w).

Definition os_path_exists (path : string) : M bool := λ w,
  (Ok (bool_decide (is_Some (fs w !! path))), w).

(** [subprocess.run(["s5cmd", "-s-help"], ...)]: raises when the executable
    is not found. *)
Definition subprocess_run_s5cmd : M unit := λ w,
  if s5cmd_on_path w then (Ok tt, w) else (Raise FileNotFoundError, w).

(** [urllib.request.urlretrieve(url, path)] *)
Definition urlretrieve (url path : string) : M unit := λ w,
  match remote w with
  | Some f => (Ok tt, retrieved url path f w)
  | None => (Raise URLError, failed_request url w)
  end.

(** [pd.read_csv(path, dtype=str, encoding="utf-8")] *)
Definition read_csv (path : string) : M RawTable := λ w,
  match fs w !! path with
  | Some (CsvArchive t) => (Ok t, w)
  | Some OtherFile => (Raise ParserError, w)
  | None => (Raise FileNotFoundError, w)
  end.

(** [.astype(str)]: a missing value becomes the text [nan]. *)
Definition astype_str (t : RawTable) : DataFrame :=
  {| columns := raw_columns t;
     rows := fmap (M := list) (fmap (M := list) (λ c, Text (default "nan" c))) (raw_rows t) |}.

(** [.replace(old, new)]: every cell equal to [old] becomes [new]. *)
Definition replace (old new : string) (df : DataFrame) : DataFrame :=
  {| columns := columns df;
     rows := fmap (M := list) (fmap (M := list)
       (λ c, if decide (c = Text old) then Text new else c)) (rows df) |}.

Definition cast_float (c : cell) : option cell :=
  match c with
  | Text s => Num <$> to_float s
  | Num x => Some (Num x)
  end.

(** [df[name] = df[name].astype(float)] *)
Definition astype_float_column (name : string) (df : DataFrame) : Result DataFrame :=
  match col_index name (columns df) with
  | None => Raise (KeyError name)
  | Some i =>
    match mapM (λ r, (λ c, <[i := c]> r) <$> cast_float (cell_at i r)) (rows df) with
    | Some rs => Ok {| columns := columns df; rows := rs |}
    | None => Raise ValueError
    end
  end.

Definition lift {A} (r : Result A) : M A := λ w, (r, w).

(** [duckdb.query(sql_query).to_df()], run where the local name [index]
    is bound to the object at [index]: a new frame, or DuckDB's error. *)
Definition duckdb_query_to_df (sql_query : string) (index : loc) : M loc := λ w,
  match duckdb_query w sql_query (frame_at index w) with
  | Some df => alloc (ODataFrame df) w
  | None => (Raise DuckDBError, w)
  end.

(** ** The methods of IDCClient *)

(** The messages of the three assertions. *)
Definition not_a_frame_msg : string := "data must be a pandas dataframe".
Definition context_msg : string := "context if specified must be a pandas dataframe".
Definition no_filter_msg : string := "at least one argument must be specified".

Definition _setDataStore (self data : loc) : M unit :=
  let! is_frame := isinstance_DataFrame data in
  assert is_frame not_a_frame_msg;;;
  (* update / set the internal data store *)
  setattr self (with_data data);;;
  (* refresh summary *)
  let! index := getattr_index self in
  let! summary := groupby_agg_at index in
  setattr self (with_collection_summary summary).

Definition _get_s5cmd_path : M string :=
  let! system := platform_system in
  let! current_dir := module_dir in
  (* construct path based on os *)
  let! s5cmdPath :=
    if bool_decide (system = "Windows") then os_path_join current_dir "s5cmd.exe"
    else if bool_decide (system = "Darwin") then os_path_join current_dir "s5cmd"
    else os_path_join current_dir "s5cmd" in
  (* check if s5cmd executable exists *)
  let! found := os_path_exists s5cmdPath in
  if negb found then
    try_except
      (subprocess_run_s5cmd;;; ret "s5cmd")
      (λ _, raise ValueError)
  else ret s5cmdPath.

Definition reset (self : loc) (refresh : bool) : M unit :=
  (* load data *)
  let! current_dir := module_dir in
  let! file_path := os_path_join current_dir "idc_index.csv.zip" in
  let! found := os_path_exists file_path in
  (if negb found || refresh
   then urlretrieve latest_idc_index_csv_url file_path
   else ret tt);;;
  (* read and format data *)
  let! raw := read_csv file_path in
  let data := replace "nan" "" (astype_str raw) in
  let! data := lift (astype_float_column "series_size_MB" data) in
  let! data := alloc (ODataFrame data) in
  (* set data *)
  _setDataStore self data.

Definition __init__ (self : loc) (data : option loc) : M unit :=
  (* reset data store *)
  match data with
  | None => reset self false
  | Some d => _setDataStore self d
  end;;;
  (* set the s5cmd path *)
  let! path := _get_s5cmd_path in
  setattr self (with_s5cmd_path path).

(** The call [IDCClient(data=...)]: a new instance, initialised. *)
Definition new_IDCClient (data : option loc) : M loc :=
  let! self := alloc (OClient bare) in
  __init__ self data;;;
  ret self.

Definition sql (self : loc) (sql_query : string) (context : option loc)
    (in_place : bool) : M loc :=
  let! context_ok :=
    match context with
    | None => ret true
    | Some c => isinstance_DataFrame c
    end in
  assert context_ok context_msg;;;
  (* specify duckdb context *)
  let! index :=
    match context with
    | None => getattr_index self
    | Some c => ret c
    end in
  (* execute query and return data as pandas dataframe *)
  let! data := duckdb_query_to_df sql_query index in
  (* update datastore or return new instance (depending on in_place) *)
  if in_place then _setDataStore self data;;; ret self
  else new_IDCClient (Some data).

Definition nl : string := String "010"%char "".

(** The f-string that opens the query of [get]. *)
Definition base_query : string :=
  nl +:+ "            SELECT" +:+ nl +:+ "            *" +:+ nl
  +:+ "            FROM" +:+ nl +:+ "                index" +:+ nl
  +:+ "        ".

Definition clause (column : string) (value : option string) : list string :=
  match value with
  | Some v => [column +:+ "='" +:+ v +:+ "'"]
  | None => []
  end.

Definition where_clause
    (collectionId patientId studyInstanceUID seriesInstanceUID : option string)
    : list string :=
  clause "collection_id" collectionId ++ clause "PatientID" patientId
  ++ clause "StudyInstanceUID" studyInstanceUID
  ++ clause "SeriesInstanceUID" seriesInstanceUID.

Definition get_query
    (collectionId patientId studyInstanceUID seriesInstanceUID : option string)
    : string :=
  let wc := where_clause collectionId patientId studyInstanceUID seriesInstanceUID in
  if bool_decide (0 < length wc)
  then base_query +:+ "WHERE " +:+ String.concat " AND " wc
  else base_query.

Definition get (self : loc)
    (collectionId patientId studyInstanceUID seriesInstanceUID : option string)
    (in_place : bool) : M loc :=
  (* at least one argument must be specified *)
  assert (bool_decide (is_Some collectionId) || bool_decide (is_Some patientId)
          || bool_decide (is_Some studyInstanceUID)
          || bool_decide (is_Some seriesInstanceUID)) no_filter_msg;;;
  let query := get_query collectionId patientId studyInstanceUID seriesInstanceUID in
  (* execute query *)
  let! subset := sql self query None false in
  (* update datastore or return new instance (depending on in_place) *)
  if in_place then _setDataStore self subset;;; ret self
  else new_IDCClient (Some subset).

Definition download (self : loc) : M unit := ret tt.

Definition raw (self : loc) : M loc := getattr_data self.

End Model.

(** * The vocabulary of the properties *)

Section Vocabulary.
Context `{F : Float64}.

(** The world in which [self] holds the attributes [c']. *)
Definition store (self : loc) (c' : IDCClient) (w : World) : World :=
  with_heap (<[self := OClient c']> (heap w)) w.

(** Where [self.index] resolves: the instance, then the class. *)
Definition resolve_index (c : IDCClient) (w : World) : option loc :=
  match index c with
  | Some v => Some v
  | None => cls_index w
  end.

(** From [w] to [w'] the heap has only grown, the objects at the
    references below [n] are what they were, and nothing but the heap has
    changed. *)
Definition keeps (n : nat) (w w' : World) : Prop :=
  length (heap w) ≤ length (heap w')
  ∧ (∀ l, l < n → heap w' !! l = heap w !! l)
  ∧ w' = with_heap (heap w') w.

(** [m] keeps the objects below [n], from any world that has them. *)
Definition Keeps {A} (n : nat) (m : M A) : Prop :=
  ∀ w r w', n ≤ length (heap w) → m w = (r, w') → keeps n w w'.

(** Where the bundled executable is looked for. *)
Definition bundled_s5cmd (w : World) : string :=
  current_dir w
  +:+ (if bool_decide (system w = "Windows") then "\" else "/")
  +:+ (if bool_decide (system w = "Windows") then "s5cmd.exe" else "s5cmd").

(** Whatever [m] raises satisfies [P]. *)
Definition Raises {A} (P : exn → Prop) (m : M A) : Prop :=
  ∀ w e w', m w = (Raise e, w') → P e.

(** The exceptions raised past the argument check of [get]. *)
Inductive raised_by_query : exn → Prop :=
  | by_context_check : raised_by_query (AssertionError context_msg)
  | by_data_check : raised_by_query (AssertionError not_a_frame_msg)
  | by_getattr name : raised_by_query (AttributeError name)
  | by_groupby_key key : raised_by_query (KeyError key)
  | by_groupby_sum : raised_by_query TypeError
  | by_receiver : raised_by_query TypeError
  | by_duckdb : raised_by_query DuckDBError
  | by_s5cmd_path : raised_by_query ValueError.

(** The state the specification calls Ready: a table, its summary and the
    path of the transfer executable are set. *)
Definition Ready (self : loc) (w : World) : Prop :=
  ∃ c d df s p,
    client_at self w = Some c ∧ data c = Some d ∧ frame_at d w = Some df
    ∧ collection_summary c = Some s ∧ s5cmd_path c = Some p.

(** The frame that the name [index] is bound to when [sql] runs its
    query. *)
Definition bound_index (self : loc) (context : option loc) (w : World)
    : option DataFrame :=
  match context with
  | Some v => frame_at v w
  | None =>
    match client_at self w with
    | Some c => resolve_index c w ≫= λ i, frame_at i w
    | None => None
    end
  end.


(** No transfer executable: none bundled, none on the path. *)
Definition no_s5cmd (w : World) : Prop :=
  fs w !! bundled_s5cmd w = None ∧ s5cmd_on_path w = false.

(** Where the archive is cached. *)
Definition cache_path (w : World) : string :=
  current_dir w
  +:+ (if bool_decide (system w = "Windows") then "\" else "/")
  +:+ "idc_index.csv.zip".

(** The three lines that format what was read. *)
Definition normalise (t : RawTable) : Result DataFrame :=
  astype_float_column "series_size_MB" (replace "nan" "" (astype_str t)).

(** A cell of the archive as text: a missing value, and the text [nan],
    become the empty text. *)
Definition text_of (o : option string) : string :=
  match o with
  | None => ""
  | Some s => if bool_decide (s = "nan") then "" else s
  end.

(** [df] has the columns of [t]; in every row, the cell of
    [series_size_MB] is the float read from the text of the cell of [t],
    and every other cell is that text. *)
Definition normalised (t : RawTable) (df : DataFrame) : Prop :=
  columns df = raw_columns t
  ∧ ∃ si, col_index "series_size_MB" (raw_columns t) = Some si
    ∧ Forall2 (λ (raw : list (option string)) (row : list cell),
         length row = length raw
         ∧ ∀ i o, raw !! i = Some o →
             if decide (i = si)
             then ∃ x, to_float (text_of o) = Some x ∧ row !! i = Some (Num x)
             else row !! i = Some (Text (text_of o)))
       (raw_rows t) (rows df).

(** The archive [reset] reads: the one retrieved, when it retrieves, else
    the one cached. *)
Definition downloads (refresh : bool) (w : World) : bool :=
  negb (bool_decide (is_Some (fs w !! cache_path w))) || refresh.

(** The archive [reset] goes on to read: the one the release URL serves,
    when it retrieves, else the one cached. *)
Definition archive (refresh : bool) (w : World) : option file :=
  if downloads refresh w then remote w else fs w !! cache_path w.

(** What [reset] has in hand when it reaches [_setDataStore]: the
    formatted frame, or the exception raised on the way. *)
Definition loaded (refresh : bool) (w : World) : Result DataFrame :=
  match archive refresh w with
  | None => Raise (if downloads refresh w then URLError else FileNotFoundError)
  | Some OtherFile => Raise ParserError
  | Some (CsvArchive t) => normalise t
  end.

(** The world after the retrieval step of [reset]. *)
Definition after_retrieval (refresh : bool) (w : World) : World :=
  if downloads refresh w then
    match remote w with
    | Some f => retrieved latest_idc_index_csv_url (cache_path w) f w
    | None => failed_request latest_idc_index_csv_url w
    end
  else w.

(** The text [reset] casts to float in one row of the archive: that of the
    cell of [series_size_MB], the empty text where the row has no such
    cell. *)
Definition size_text (si : nat) (raw : list (option string)) : string :=
  text_of (mjoin (raw !! si)).

End Vocabulary.

(** ** A float64 for the examples

    The whole numbers, which float64 holds and adds exactly (below 2^53);
    a text cell is read as one when it is a non-empty run of digits. *)

Fixpoint parse_digits (s : string) (acc : Z) : option Z :=
  match s with
  | EmptyString => Some acc
  | String a s' =>
    let n := nat_of_ascii a in
    if bool_decide (48 ≤ n ≤ 57)%nat
    then parse_digits s' (10 * acc + Z.of_nat (n - 48))
    else None
  end.

#[export] Instance whole_float64 : Float64 := {|
  float64 := Z;
  to_float := λ s, if bool_decide (s = "") then None else parse_digits s 0;
  agg_sum := foldr Z.add 0%Z;
|}.

(** The table of the specification's scenario, with the columns the
    summary reads. *)
Definition scenario : DataFrame := {|
  columns := ["collection_id"; "PatientID"; "StudyInstanceUID"; "SeriesInstanceUID";
              "Modality"; "series_size_MB"];
  rows := [ [Text "A"; Text "P1"; Text "1.1"; Text "1.1.1"; Text "CT"; Num 10%Z];
            [Text "A"; Text "P2"; Text "1.2"; Text "1.2.1"; Text "MR"; Num 5%Z];
            [Text "B"; Text "P3"; Text "1.3"; Text "1.3.1"; Text "CT"; Num 20%Z] ];
|}.

(** An engine for the examples: it answers the one query
    [SELECT * FROM index], with the frame bound to [index], and raises on
    anything else. *)
Definition select_all_engine (q : string) (index : option DataFrame) : option DataFrame :=
  if bool_decide (q = "SELECT * FROM index") then index else None.

(** A world as the module leaves it: the class has no attribute [index];
    no executable is bundled, one is on the path; the heap holds the
    scenario table. *)
Definition world0 : World := {|
  heap := [ODataFrame scenario];
  cls_index := None;
  fs := ∅;
  remote := None;
  requests := [];
  current_dir := "/site-packages/idc_index";
  system := "Linux";
  s5cmd_on_path := true;
  duckdb_query := select_all_engine;
|}.

Definition scenario_summary : Summary :=
  [ (Text "A", {| Modality := [Text "CT"; Text "MR"]; series_size_MB := Num 15%Z |});
    (Text "B", {| Modality := [Text "CT"]; series_size_MB := Num 20%Z |}) ].

(** A frame without the columns the summary reads. *)
Definition patients_only : DataFrame := {|
  columns := ["PatientID"];
  rows := [ [Text "P1"]; [Text "P2"] ];
|}.

(** A handle as the specification describes one that is ready: the
    scenario table, its summary, the path of the transfer executable.  No
    method assigns [index], so it is unset. *)
Definition ready_handle : IDCClient := {|
  data := Some 0;
  index := None;
  collection_summary := Some scenario_summary;
  s5cmd_path := Some "s5cmd";
|}.

(** A table of another collection. *)
Definition other_collection : DataFrame := {|
  columns := ["collection_id"; "PatientID"; "StudyInstanceUID"; "SeriesInstanceUID";
              "Modality"; "series_size_MB"];
  rows := [ [Text "Z"; Text "P9"; Text "9.1"; Text "9.1.1"; Text "PT"; Num 7%Z] ];
|}.

(** [world0] with that handle at 1, the frame [patients_only] at 2 and the
    frame [other_collection] at 3. *)
Definition world1 : World :=
  with_heap [ODataFrame scenario; OClient ready_handle; ODataFrame patients_only;
             ODataFrame other_collection] world0.

(** [world1] after [IDCClient.index = <the frame at 3>], set from outside
    the module. *)
Definition world1_patched : World := {|
  heap := heap world1;
  cls_index := Some 3;
  fs := fs world1;
  remote := remote world1;
  requests := requests world1;
  current_dir := current_dir world1;
  system := system world1;
  s5cmd_on_path := s5cmd_on_path world1;
  duckdb_query := duckdb_query world1;
|}.

(** Two archives: the one cached, and the one the release URL serves. *)
Definition cached_csv : RawTable := {|
  raw_columns := ["collection_id"; "Modality"; "series_size_MB"];
  raw_rows := [ [Some "A"; Some "CT"; Some "10"] ];
|}.

Definition released_csv : RawTable := {|
  raw_columns := ["collection_id"; "Modality"; "series_size_MB"];
  raw_rows := [ [Some "A"; Some "CT"; Some "10"]; [Some "B"; None; Some "20"] ];
|}.

Definition released_frame : DataFrame := {|
  columns := ["collection_id"; "Modality"; "series_size_MB"];
  rows := [ [Text "A"; Text "CT"; Num 10%Z]; [Text "B"; Text ""; Num 20%Z] ];
|}.

(** [world1] with an archive cached and the release within reach. *)
Definition world_cached : World := {|
  heap := heap world1;
  cls_index := None;
  fs := {[ "/site-packages/idc_index/idc_index.csv.zip" := CsvArchive cached_csv ]};
  remote := Some (CsvArchive released_csv);
  requests := [];
  current_dir := current_dir world1;
  system := system world1;
  s5cmd_on_path := true;
  duckdb_query := duckdb_query world1;
|}.

(** [world1], the module as it is written, with no transfer executable. *)
Definition world1_no_s5cmd : World := {|
  heap := heap world1;
  cls_index := None;
  fs := fs world1;
  remote := remote world1;
  requests := requests world1;
  current_dir := current_dir world1;
  system := system world1;
  s5cmd_on_path := false;
  duckdb_query := duckdb_query world1;
|}.

(** ** An engine for the queries of [get]

    It answers [SELECT * FROM index] and the queries [get] writes: the
    opening text, then nothing, or [WHERE] and the clauses [column='value']
    joined by [AND].  The answer holds the rows of the frame bound to
    [index] whose cells are the values asked for; anything else, a column
    the frame has not among it, is an error. *)

Fixpoint strip_prefix (p s : string) : option string :=
  match p, s with
  | EmptyString, _ => Some s
  | String a p', String b s' => if decide (a = b) then strip_prefix p' s' else None
  | String _ _, EmptyString => None
  end.

(** The pieces of [s] between the occurrences of [sep]; [skip] counts the
    characters of an occurrence still to pass over. *)
Fixpoint split_on (sep s : string) (skip : nat) (piece : string) : list string :=
  match s with
  | EmptyString => [piece]
  | String a s' =>
    match skip with
    | S k => split_on sep s' k piece
    | O =>
      if bool_decide (is_Some (strip_prefix sep s))
      then piece :: split_on sep s' (String.length sep - 1) ""
      else split_on sep s' 0 (piece +:+ String a "")
    end
  end.

Fixpoint strip_last (c : ascii) (s : string) : option string :=
  match s with
  | EmptyString => None
  | String a s' =>
    match s' with
    | EmptyString => if decide (a = c) then Some "" else None
    | String _ _ => String a <$> strip_last c s'
    end
  end.

(** [column='value'] *)
Definition parse_clause (cl : string) : option (string * string) :=
  match split_on "='" cl 0 "" with
  | [column; v] => (λ value, (column, value)) <$> strip_last "'"%char v
  | _ => None
  end.

Definition parse_query (q : string) : option (list (string * string)) :=
  if bool_decide (q = "SELECT * FROM index") then Some []
  else
    match strip_prefix base_query q with
    | None => None
    | Some EmptyString => Some []
    | Some rest =>
      match strip_prefix "WHERE " rest with
      | None => None
      | Some conds => mapM parse_clause (split_on " AND " conds 0 "")
      end
    end.

Definition filter_engine (q : string) (index : option DataFrame) : option DataFrame :=
  match index, parse_query q with
  | Some df, Some conds =>
    match mapM (λ cv : string * string,
                  (λ i, (i, cv.2)) <$> col_index cv.1 (columns df)) conds with
    | Some tests =>
      Some {| columns := columns df;
              rows := List.filter
                        (λ r, forallb (λ t : nat * string,
                                         bool_decide (cell_at t.1 r = Text t.2)) tests)
                        (rows df) |}
    | None => None
    end
  | _, _ => None
  end.

(** The rows of the scenario in collection A. *)
Definition collection_A : DataFrame := {|
  columns := columns scenario;
  rows := [ [Text "A"; Text "P1"; Text "1.1"; Text "1.1.1"; Text "CT"; Num 10%Z];
            [Text "A"; Text "P2"; Text "1.2"; Text "1.2.1"; Text "MR"; Num 5%Z] ];
|}.

(** [world1] with that engine, with [IDCClient.index = <the scenario
    table>] set from outside the module, and with no transfer
    executable. *)
Definition world_filtering : World := {|
  heap := heap world1;
  cls_index := Some 0;
  fs := fs world1;
  remote := remote world1;
  requests := requests world1;
  current_dir := current_dir world1;
  system := system world1;
  s5cmd_on_path := false;
  duckdb_query := filter_engine;
|}.

(** * Properties *)

Section Facts.
Context `{F : Float64}.

Implicit Types (w : World) (c : IDCClient) (df : DataFrame) (l self : loc).

(** ** The summary frame *)

Lemma elem_of_unique (x : cell) (l : list cell) : x ∈ unique l ↔ x ∈ l.
Proof.
  induction l as [|y l IH]; simpl; [done|].
  rewrite !elem_of_cons, list_elem_of_filter, IH.
  destruct (decide (x = y)); tauto.
Qed.

Lemma NoDup_unique (l : list cell) : NoDup (unique l).
Proof.
  induction l as [|y l IH]; simpl; [constructor|].
  constructor; [|by apply NoDup_filter].
  rewrite list_elem_of_filter. intros [Hne _]. by apply Hne.
Qed.

Lemma summary_lookup_cons (c k : cell) (row : summary_row) (s : Summary) :
  summary_lookup c ((k, row) :: s)
  = if decide (k = c) then Some row else summary_lookup c s.
Proof.
  unfold summary_lookup. simpl.
  destruct (decide (k = c)); [done|].
  by destruct (list_find _ s) as [[? ?]|].
Qed.

Lemma agg_groups_lookup ki mi si rs keys (s : Summary) (c : cell) :
  agg_groups ki mi si rs keys = Ok s →
  c ∈ keys →
  ∃ row, summary_lookup c s = Some row
         ∧ agg_group mi si (group_rows ki c rs) = Ok row.
Proof.
  revert s. induction keys as [|k keys IH]; intros s Hs Hc.
  { by apply elem_of_nil in Hc. }
  simpl in Hs.
  destruct (agg_group mi si (group_rows ki k rs)) as [row|] eqn:Hk; [|done].
  destruct (agg_groups ki mi si rs keys) as [s'|] eqn:Hs'; [|done].
  injection Hs as <-. rewrite summary_lookup_cons.
  destruct (decide (k = c)) as [->|Hne]; [by eauto|].
  apply elem_of_cons in Hc as [->|Hc]; [done|]. by apply IH.
Qed.

Lemma agg_groups_keys ki mi si rs keys (s : Summary) :
  agg_groups ki mi si rs keys = Ok s → s.*1 = keys.
Proof.
  revert s. induction keys as [|k keys IH]; intros s Hs; simpl in Hs.
  { by injection Hs as <-. }
  destruct (agg_group mi si (group_rows ki k rs)) as [row|]; [|done].
  destruct (agg_groups ki mi si rs keys) as [s'|]; [|done].
  injection Hs as <-. simpl. f_equal. by apply IH.
Qed.

(** What a successful [groupby_agg] holds for a collection id that occurs
    in the frame: the unique modalities and the sum of the sizes of the
    rows of that collection. *)
Lemma groupby_agg_lookup df (s : Summary) ki mi si (c : cell) :
  groupby_agg df = Ok s →
  col_index "collection_id" (columns df) = Some ki →
  col_index "Modality" (columns df) = Some mi →
  col_index "series_size_MB" (columns df) = Some si →
  c ∈ cell_at ki <$> rows df →
  ∃ row, summary_lookup c s = Some row
    ∧ Modality row = unique (cell_at mi <$> group_rows ki c (rows df))
    ∧ sum_cells (cell_at si <$> group_rows ki c (rows df)) = Ok (series_size_MB row).
Proof.
  unfold groupby_agg. intros Hs Hki Hmi Hsi Hc.
  rewrite Hki, Hmi, Hsi in Hs.
  apply elem_of_unique in Hc.
  destruct (agg_groups_lookup _ _ _ _ _ _ _ Hs Hc) as (row & Hrow & Hagg).
  exists row. split; [done|].
  unfold agg_group in Hagg.
  destruct (sum_cells _) as [total|]; [|done].
  by injection Hagg as <-.
Qed.

(** The summary has one row for each collection id of the frame. *)
Lemma groupby_agg_keys df (s : Summary) ki :
  groupby_agg df = Ok s →
  col_index "collection_id" (columns df) = Some ki →
  NoDup s.*1 ∧ ∀ k : cell, k ∈ s.*1 ↔ k ∈ cell_at ki <$> rows df.
Proof.
  unfold groupby_agg. intros Hs Hki. rewrite Hki in Hs.
  destruct (col_index "Modality" _) as [mi|]; [|done].
  destruct (col_index "series_size_MB" _) as [si|]; [|done].
  apply agg_groups_keys in Hs as ->. split; [apply NoDup_unique|].
  intros k. apply elem_of_unique.
Qed.

Lemma groupby_agg_raises df e :
  groupby_agg df = Raise e → (∃ k, e = KeyError k) ∨ e = TypeError.
Proof.
  unfold groupby_agg.
  destruct (col_index "collection_id" _) as [ki|]; [|intros [= <-]; eauto].
  destruct (col_index "Modality" _) as [mi|]; [|intros [= <-]; eauto].
  destruct (col_index "series_size_MB" _) as [si|]; [|intros [= <-]; eauto].
  generalize (unique (cell_at ki <$> rows df)). intros keys.
  induction keys as [|k keys IH]; simpl; [done|].
  destruct (agg_group mi si (group_rows ki k (rows df))) as [row|e'] eqn:Hk.
  - destruct (agg_groups ki mi si (rows df) keys) as [s'|e'']; [done|].
    intros [= <-]. by apply IH.
  - intros [= <-]. right. unfold agg_group, sum_cells in Hk.
    destruct (nums _); [done|]. destruct (texts _); [done|]. by injection Hk.
Qed.

(** ** Running the monad *)

Lemma bind_inv {A B} (m : M A) (k : A → M B) w (r : Result B) w' :
  bind m k w = (r, w') →
  (∃ e, m w = (Raise e, w') ∧ r = Raise e)
  ∨ (∃ a w1, m w = (Ok a, w1) ∧ k a w1 = (r, w')).
Proof.
  unfold bind. destruct (m w) as [[a|e] w1]; [by eauto|].
  intros [= <- <-]. eauto.
Qed.

Lemma bind_Ok {A B} (m : M A) (k : A → M B) w a w1 :
  m w = (Ok a, w1) → bind m k w = k a w1.
Proof. unfold bind. by intros ->. Qed.

Lemma bind_Raise {A B} (m : M A) (k : A → M B) w e w1 :
  m w = (Raise e, w1) → bind m k w = (Raise e, w1).
Proof. unfold bind. by intros ->. Qed.

(** ** Attribute access *)

Lemma client_at_lt self w c : client_at self w = Some c → self < length (heap w).
Proof.
  unfold client_at. destruct (heap w !! self) eqn:E; [|done].
  intros _. by eapply lookup_lt_Some.
Qed.

Lemma client_at_store self w c c' :
  client_at self w = Some c → client_at self (store self c' w) = Some c'.
Proof.
  intros Hc. unfold client_at, store. simpl.
  by rewrite list_lookup_insert_eq by by eapply client_at_lt.
Qed.

Lemma frame_at_store self l w c c' :
  client_at self w = Some c → frame_at l (store self c' w) = frame_at l w.
Proof.
  intros Hc. unfold frame_at, store. simpl.
  destruct (decide (self = l)) as [<-|Hne].
  - rewrite list_lookup_insert_eq by by eapply client_at_lt.
    unfold client_at in Hc. by destruct (heap w !! self) as [[]|].
  - by rewrite list_lookup_insert_ne.
Qed.

Lemma store_store self c1 c2 w : store self c2 (store self c1 w) = store self c2 w.
Proof. unfold store. simpl. by rewrite list_insert_insert_eq. Qed.

Lemma client_frame_disjoint l w c : client_at l w = Some c → frame_at l w = None.
Proof.
  unfold client_at, frame_at. by destruct (heap w !! l) as [[]|].
Qed.

Lemma receiver_client self w c : client_at self w = Some c → receiver self w = (Ok c, w).
Proof. unfold receiver. by intros ->. Qed.

Lemma receiver_other self w : client_at self w = None → receiver self w = (Raise TypeError, w).
Proof. unfold receiver. by intros ->. Qed.

Lemma setattr_client self f w c :
  client_at self w = Some c → setattr self f w = (Ok tt, store self (f c) w).
Proof. intros Hc. unfold setattr. by rewrite (bind_Ok _ _ _ _ _ (receiver_client _ _ _ Hc)). Qed.

Lemma getattr_index_client self w c :
  client_at self w = Some c →
  getattr_index self w
  = match resolve_index c w with
    | Some v => (Ok v, w)
    | None => (Raise (AttributeError "index"), w)
    end.
Proof.
  intros Hc. unfold getattr_index, resolve_index.
  rewrite (bind_Ok _ _ _ _ _ (receiver_client _ _ _ Hc)).
  by destruct (index c).
Qed.

(** ** [_setDataStore], case by case *)

Lemma setDataStore_not_a_frame self d w :
  frame_at d w = None →
  _setDataStore self d w = (Raise (AssertionError not_a_frame_msg), w).
Proof.
  intros Hd. unfold _setDataStore, bind, isinstance_DataFrame. rewrite Hd.
  rewrite bool_decide_eq_false_2 by (by intros [? ?]). done.
Qed.

(** On a frame: [data] is assigned first; the summary is then computed from
    the frame that [self.index] resolves to. *)
Lemma setDataStore_frame self d w c df :
  client_at self w = Some c →
  frame_at d w = Some df →
  _setDataStore self d w
  = match resolve_index c w with
    | None => (Raise (AttributeError "index"), store self (with_data d c) w)
    | Some i =>
      match frame_at i w with
      | None => (Raise (AttributeError "groupby"), store self (with_data d c) w)
      | Some idf =>
        match groupby_agg idf with
        | Raise e => (Raise e, store self (with_data d c) w)
        | Ok s => (Ok tt, store self (with_collection_summary s (with_data d c)) w)
        end
      end
    end.
Proof.
  intros Hc Hd. unfold _setDataStore.
  unfold bind at 1. unfold isinstance_DataFrame. rewrite Hd.
  rewrite bool_decide_eq_true_2 by eauto. simpl.
  unfold bind at 1. simpl.
  rewrite (bind_Ok _ _ _ _ _ (setattr_client _ _ _ _ Hc)).
  pose proof (client_at_store self w c (with_data d c) Hc) as Hc1.
  unfold bind at 1. rewrite (getattr_index_client _ _ _ Hc1).
  change (resolve_index (with_data d c) (store self (with_data d c) w))
    with (resolve_index c w).
  destruct (resolve_index c w) as [i|]; [|done].
  unfold bind at 1. unfold groupby_agg_at.
  rewrite (frame_at_store _ _ _ _ _ Hc).
  destruct (frame_at i w) as [idf|]; [|done].
  destruct (groupby_agg idf) as [s|e]; [|done].
  rewrite (setattr_client _ _ _ _ Hc1). by rewrite store_store.
Qed.

(** ** What a method leaves alone *)

Lemma keeps_refl n w : keeps n w w.
Proof. split_and!; [done..|]. by destruct w. Qed.

Lemma keeps_trans n w1 w2 w3 : keeps n w1 w2 → keeps n w2 w3 → keeps n w1 w3.
Proof.
  intros (Hlen1 & Hobj1 & Henv1) (Hlen2 & Hobj2 & Henv2). split_and!.
  - lia.
  - intros l Hl. by rewrite Hobj2, Hobj1.
  - rewrite Henv2, Henv1. done.
Qed.

Lemma Keeps_unchanged {A} n (m : M A) : (∀ w, (m w).2 = w) → Keeps n m.
Proof.
  intros Hm w r w' _ Hrun. specialize (Hm w). rewrite Hrun in Hm. simpl in Hm.
  subst w'. apply keeps_refl.
Qed.

Lemma Keeps_bind {A B} n (m : M A) (k : A → M B) :
  Keeps n m → (∀ a, Keeps n (k a)) → Keeps n (bind m k).
Proof.
  intros Hm Hk w r w' Hn Hrun.
  apply bind_inv in Hrun as [(e & Hrun & _)|(a & w1 & Hrun1 & Hrun2)].
  - by eapply Hm.
  - pose proof (Hm _ _ _ Hn Hrun1) as Hk1.
    eapply keeps_trans; [done|]. eapply Hk; [|done]. destruct Hk1. lia.
Qed.

Lemma Keeps_alloc_bind {B} n (o : pyobj) (k : loc → M B) :
  (∀ l, n ≤ l → Keeps n (k l)) → Keeps n (bind (alloc o) k).
Proof.
  intros Hk w r w' Hn Hrun. unfold bind, alloc in Hrun.
  assert (keeps n w (with_heap (heap w ++ [o]) w)) as Hstep.
  { split_and!; simpl; [rewrite length_app; lia| |done].
    intros l Hl. apply lookup_app_l. lia. }
  eapply keeps_trans; [done|].
  eapply (Hk (length (heap w))); [done| |done]. simpl. rewrite length_app. lia.
Qed.

Lemma Keeps_alloc n (o : pyobj) : Keeps n (alloc o).
Proof.
  intros w r w' Hn [= <- <-]. split_and!; simpl; [rewrite length_app; lia| |done].
  intros l Hl. apply lookup_app_l. lia.
Qed.

Lemma Keeps_setattr n self f : n ≤ self → Keeps n (setattr self f).
Proof.
  intros Hself w r w' Hn Hrun. unfold setattr, bind, receiver in Hrun.
  destruct (client_at self w); simplify_eq; [|apply keeps_refl].
  split_and!; simpl; [by rewrite length_insert| |done].
  intros l Hl. apply list_lookup_insert_ne. lia.
Qed.

Lemma Keeps_ret {A} n (a : A) : Keeps n (ret a).
Proof. by apply Keeps_unchanged. Qed.

Lemma Keeps_raise {A} n e : Keeps n (raise (A := A) e).
Proof. by apply Keeps_unchanged. Qed.

Lemma Keeps_assert n b msg : Keeps n (assert b msg).
Proof. apply Keeps_unchanged. by destruct b. Qed.

Lemma Keeps_isinstance n v : Keeps n (isinstance_DataFrame v).
Proof. by apply Keeps_unchanged. Qed.

Lemma Keeps_getattr_index n self : Keeps n (getattr_index self).
Proof.
  apply Keeps_unchanged. intros w. unfold getattr_index, bind, receiver.
  destruct (client_at self w) as [c|]; [|done].
  destruct (index c); [done|]. by destruct (cls_index w).
Qed.

Lemma Keeps_groupby_agg_at n v : Keeps n (groupby_agg_at v).
Proof.
  apply Keeps_unchanged. intros w. unfold groupby_agg_at.
  destruct (frame_at v w) as [df|]; [|done]. by destruct (groupby_agg df).
Qed.

Lemma Keeps_duckdb n q v : Keeps n (duckdb_query_to_df q v).
Proof.
  intros w r w' Hn Hrun. unfold duckdb_query_to_df in Hrun.
  destruct (duckdb_query w q (frame_at v w)) as [df|].
  - by eapply Keeps_alloc.
  - simplify_eq. apply keeps_refl.
Qed.

Lemma get_s5cmd_path_eq w :
  _get_s5cmd_path w
  = (if bool_decide (is_Some (fs w !! bundled_s5cmd w)) then Ok (bundled_s5cmd w)
     else if s5cmd_on_path w then Ok "s5cmd" else Raise ValueError, w).
Proof.
  unfold _get_s5cmd_path, bundled_s5cmd, try_except, bind, platform_system,
    module_dir, os_path_join, os_path_exists, subprocess_run_s5cmd, ret, raise.
  destruct (bool_decide (system w = "Windows")) eqn:Hwin; simpl.
  - rewrite Hwin. destruct (bool_decide (is_Some _)); simpl; [done|].
    by destruct (s5cmd_on_path w).
  - destruct (bool_decide (system w = "Darwin")); simpl; rewrite Hwin;
      (destruct (bool_decide (is_Some _)); simpl; [done|]);
      by destruct (s5cmd_on_path w).
Qed.

Lemma Keeps_get_s5cmd_path n : Keeps n _get_s5cmd_path.
Proof.
  apply Keeps_unchanged. intros w. rewrite get_s5cmd_path_eq. by repeat case_match.
Qed.

Create HintDb keeps.
#[local] Hint Resolve Keeps_ret Keeps_raise Keeps_assert Keeps_isinstance
  Keeps_getattr_index Keeps_groupby_agg_at Keeps_duckdb Keeps_get_s5cmd_path
  Keeps_alloc Keeps_setattr : keeps.

Ltac keeps_steps :=
  repeat lazymatch goal with
    | |- Keeps _ (bind (alloc _) _) => apply Keeps_alloc_bind; intros ? ?
    | |- Keeps _ (bind _ _) => apply Keeps_bind; [|intros ?]
    | |- Keeps _ (if _ then _ else _) => case_match
    | |- Keeps _ (match _ with Some _ => _ | None => _ end) => case_match
    end;
  eauto with keeps.

Lemma Keeps_setDataStore n self d : n ≤ self → Keeps n (_setDataStore self d).
Proof. intros Hself. unfold _setDataStore. keeps_steps. Qed.

#[local] Hint Resolve Keeps_setDataStore : keeps.

Lemma Keeps_init n self d : n ≤ self → Keeps n (__init__ self (Some d)).
Proof. intros Hself. unfold __init__. keeps_steps. Qed.

Lemma Keeps_new_IDCClient n d : Keeps n (new_IDCClient (Some d)).
Proof.
  unfold new_IDCClient. apply Keeps_alloc_bind. intros self Hself.
  apply Keeps_bind; [by apply Keeps_init|]. intros _. apply Keeps_ret.
Qed.

#[local] Hint Resolve Keeps_new_IDCClient : keeps.

(** In copy mode [sql] writes to no object that existed before the call. *)
Lemma Keeps_sql_copy n self q context : Keeps n (sql self q context false).
Proof. unfold sql. keeps_steps. Qed.

Lemma Keeps_get_copy n self (cid pid stid seid : option string) :
  Keeps n (get self cid pid stid seid false).
Proof. unfold get. keeps_steps. apply Keeps_sql_copy. Qed.

(** ** The constructor *)

Lemma setattr_Ok self f w u w' :
  setattr self f w = (Ok u, w') →
  ∃ c, client_at self w = Some c ∧ w' = store self (f c) w.
Proof.
  unfold setattr, bind, receiver.
  destruct (client_at self w) as [c|]; [|done]. intros [= _ <-]. eauto.
Qed.

Lemma get_s5cmd_path_world w : (_get_s5cmd_path w).2 = w.
Proof. rewrite get_s5cmd_path_eq. by repeat case_match. Qed.

Lemma client_at_alloc w c : client_at (length (heap w)) (with_heap (heap w ++ [OClient c]) w) = Some c.
Proof. unfold client_at. simpl. by rewrite lookup_app_r, Nat.sub_diag by lia. Qed.

Lemma frame_at_alloc_client w c l :
  frame_at l (with_heap (heap w ++ [OClient c]) w) = frame_at l w.
Proof.
  unfold frame_at. simpl. destruct (decide (l < length (heap w))) as [Hl|Hl].
  - by rewrite lookup_app_l.
  - rewrite (lookup_ge_None_2 (heap w)) by lia.
    destruct (decide (l = length (heap w))) as [->|Hne].
    + by rewrite lookup_app_r, Nat.sub_diag by lia.
    + rewrite lookup_ge_None_2; [done|]. rewrite length_app. simpl. lia.
Qed.

(** What a call [IDCClient(data=d)] that returns has built: a new object,
    whose [data] is the reference passed, with a summary and the path of
    the transfer executable. *)
Lemma new_IDCClient_Ok d w l w' :
  new_IDCClient (Some d) w = (Ok l, w') →
  l = length (heap w)
  ∧ ∃ df s p,
      frame_at d w = Some df ∧ frame_at d w' = Some df
      ∧ client_at l w'
        = Some {| data := Some d; index := None;
                  collection_summary := Some s; s5cmd_path := Some p |}.
Proof.
  unfold new_IDCClient. unfold bind at 1. unfold alloc at 1.
  set (self := length (heap w)). set (w0 := with_heap (heap w ++ [OClient bare]) w).
  intros Hrun.
  apply bind_inv in Hrun as [(e & _ & ?)|([] & w1 & Hinit & Hret)]; [done|].
  injection Hret as <- <-. split; [done|].
  unfold __init__ in Hinit.
  apply bind_inv in Hinit as [(e & _ & ?)|([] & w2 & Hset & Hrest)]; [done|].
  apply bind_inv in Hrest as [(e & _ & ?)|(p & w3 & Hpath & Hattr)]; [done|].
  pose proof (get_s5cmd_path_world w2) as Hw3. rewrite Hpath in Hw3. simpl in Hw3.
  subst w3. apply setattr_Ok in Hattr as (c2 & Hc2 & ->).
  pose proof (client_at_alloc w bare) as Hbare. fold self w0 in Hbare.
  destruct (frame_at d w0) as [df|] eqn:Hd.
  2:{ by rewrite (setDataStore_not_a_frame _ _ _ Hd) in Hset. }
  rewrite (setDataStore_frame _ _ _ _ _ Hbare Hd) in Hset.
  destruct (resolve_index bare w0) as [i|]; [|done].
  destruct (frame_at i w0) as [idf|]; [|done].
  destruct (groupby_agg idf) as [s|]; [|done].
  injection Hset as <-.
  rewrite (client_at_store _ _ _ _ Hbare) in Hc2. injection Hc2 as <-.
  exists df, s, p. split_and!.
  - unfold w0 in Hd. by rewrite frame_at_alloc_client in Hd.
  - erewrite !frame_at_store; [done|done|]. by eapply client_at_store.
  - erewrite client_at_store; [done|]. by eapply client_at_store.
Qed.

(** A call [IDCClient(data=d)] on what is no frame raises the assertion of
    [_setDataStore]. *)
Lemma new_IDCClient_not_a_frame d w :
  frame_at d w = None →
  (new_IDCClient (Some d) w).1 = Raise (AssertionError not_a_frame_msg).
Proof.
  intros Hd. unfold new_IDCClient. unfold bind at 1. unfold alloc at 1.
  unfold bind at 1. unfold __init__. unfold bind at 1.
  rewrite setDataStore_not_a_frame; [done|].
  by rewrite frame_at_alloc_client.
Qed.

(** ** [sql] and [get] *)

(** What [sql] in copy mode returns, when it returns, is a new IDCClient. *)
Lemma sql_copy_Ok self q context w l w' :
  sql self q context false w = (Ok l, w') →
  ∃ d df, duckdb_query w q (bound_index self context w) = Some df
    ∧ length (heap w) ≤ d ∧ length (heap w) < l
    ∧ frame_at d w' = Some df
    ∧ ∃ s p, client_at l w'
             = Some {| data := Some d; index := None;
                       collection_summary := Some s; s5cmd_path := Some p |}.
Proof.
  unfold sql. intros Hrun.
  apply bind_inv in Hrun as [(e & _ & ?)|(ok & w1 & Hok & Hrun)]; [done|].
  apply bind_inv in Hrun as [(e & _ & ?)|([] & w2 & Hassert & Hrun)]; [done|].
  apply bind_inv in Hrun as [(e & _ & ?)|(i & w3 & Hindex & Hrun)]; [done|].
  apply bind_inv in Hrun as [(e & _ & ?)|(d & w4 & Hquery & Hrun)]; [done|].
  assert (w1 = w ∧ w2 = w ∧ w3 = w) as (-> & -> & ->).
  { assert (w1 = w) as ->
      by (destruct context; cbv [ret isinstance_DataFrame] in Hok; by simplify_eq).
    assert (w2 = w) as ->
      by (destruct ok; cbv [assert ret raise] in Hassert; by simplify_eq).
    split_and!; [done..|].
    destruct context; [cbv [ret] in Hindex; by simplify_eq|].
    unfold getattr_index, bind, receiver in Hindex.
    destruct (client_at self w) as [c|]; [|done].
    destruct (index c); [cbv [ret] in Hindex; by simplify_eq|].
    destruct (cls_index w); by simplify_eq. }
  unfold duckdb_query_to_df in Hquery.
  destruct (duckdb_query w q (frame_at i w)) as [df|] eqn:Hdf; [|done].
  injection Hquery as <- <-.
  apply new_IDCClient_Ok in Hrun as (-> & df' & s & p & Hd & Hd' & Hc).
  exists (length (heap w)), df. split_and!.
  - rewrite <-Hdf. f_equal. unfold bound_index.
    destruct context as [v|]; [cbv [ret] in Hindex; by simplify_eq|].
    unfold getattr_index, bind, receiver in Hindex.
    destruct (client_at self w) as [c|]; [|done]. unfold resolve_index.
    destruct (index c); [cbv [ret] in Hindex; by simplify_eq|]. simpl.
    destruct (cls_index w); by simplify_eq.
  - done.
  - simpl. rewrite length_app. simpl. lia.
  - rewrite Hd'. f_equal. unfold frame_at in Hd. simpl in Hd.
    rewrite lookup_app_r, Nat.sub_diag in Hd by lia. simpl in Hd. by simplify_eq.
  - eauto.
Qed.

(** [get] passes what [sql] returned, an IDCClient, on as [data]: the
    assertion of [_setDataStore] stops it in either mode. *)
Lemma get_raises w self (cid pid stid seid : option string) in_place :
  let out := (get self cid pid stid seid in_place w).1 in
  out = Raise (AssertionError no_filter_msg)
  ∨ out = Raise (AssertionError not_a_frame_msg)
  ∨ ∃ e, out = Raise e
         ∧ (sql self (get_query cid pid stid seid) None false w).1 = Raise e.
Proof.
  cbv zeta. unfold get.
  destruct (_ || _); [|by left]. right.
  rewrite (bind_Ok _ _ w tt w) by done.
  destruct (sql self (get_query cid pid stid seid) None false w)
    as [[subset|e] w1] eqn:Hsql.
  2:{ right. exists e. by rewrite (bind_Raise _ _ _ _ _ Hsql). }
  left. rewrite (bind_Ok _ _ _ _ _ Hsql).
  apply sql_copy_Ok in Hsql as (d & df & _ & _ & _ & _ & s & p & Hsubset).
  apply client_frame_disjoint in Hsubset.
  destruct in_place.
  - unfold bind. by rewrite setDataStore_not_a_frame.
  - by apply new_IDCClient_not_a_frame.
Qed.

(** [get] writes to no object that existed before the call, in either
    mode: in place it stops at the assertion, before the assignment. *)
Lemma get_keeps w self (cid pid stid seid : option string) in_place r w' :
  get self cid pid stid seid in_place w = (r, w') → keeps (length (heap w)) w w'.
Proof.
  destruct in_place; [|by apply Keeps_get_copy].
  unfold get. intros Hrun.
  apply bind_inv in Hrun as [(e & Hrun & _)|([] & w1 & Hassert & Hrun)].
  { by eapply Keeps_assert. }
  pose proof (Keeps_assert _ _ _ _ _ _ (Nat.le_refl _) Hassert) as Hk1.
  eapply keeps_trans; [done|].
  apply bind_inv in Hrun as [(e & Hrun & _)|(subset & w2 & Hsql & Hrun)].
  { eapply Keeps_sql_copy; [|done]. destruct Hk1. lia. }
  pose proof (Keeps_sql_copy (length (heap w)) _ _ _ _ _ _ (proj1 Hk1) Hsql) as Hk2.
  eapply keeps_trans; [done|].
  apply sql_copy_Ok in Hsql as (d & df & _ & _ & _ & _ & s & p & Hsubset).
  apply client_frame_disjoint in Hsubset.
  unfold bind in Hrun. rewrite (setDataStore_not_a_frame _ _ _ Hsubset) in Hrun.
  injection Hrun as _ <-. apply keeps_refl.
Qed.

(** ** The exceptions a method can raise *)

Lemma Raises_bind {A B} P (m : M A) (k : A → M B) :
  Raises P m → (∀ a, Raises P (k a)) → Raises P (bind m k).
Proof.
  intros Hm Hk w e w' Hrun.
  apply bind_inv in Hrun as [(e' & Hrun & [= ->])|(a & w1 & _ & Hrun)].
  - by eapply Hm.
  - by eapply Hk.
Qed.

Lemma raised_by_query_not_no_filter e :
  raised_by_query e → e ≠ AssertionError no_filter_msg.
Proof. by destruct 1. Qed.

Lemma Raises_setattr self f : Raises raised_by_query (setattr self f).
Proof.
  intros w e w'. unfold setattr, bind, receiver.
  destruct (client_at self w); intros [= <- _]. constructor.
Qed.

Lemma Raises_getattr_index self : Raises raised_by_query (getattr_index self).
Proof.
  intros w e w'. unfold getattr_index, bind, receiver.
  destruct (client_at self w) as [c|]; [|intros [= <- _]; constructor].
  destruct (index c); [done|].
  destruct (cls_index w); intros [= <- _]. constructor.
Qed.

Lemma Raises_groupby_agg_at v : Raises raised_by_query (groupby_agg_at v).
Proof.
  intros w e w'. unfold groupby_agg_at.
  destruct (frame_at v w) as [df|]; [|intros [= <- _]; constructor].
  destruct (groupby_agg df) as [s|e'] eqn:Hagg; intros [= <- _].
  apply groupby_agg_raises in Hagg as [[k ->]| ->]; constructor.
Qed.

Lemma Raises_setDataStore self d : Raises raised_by_query (_setDataStore self d).
Proof.
  unfold _setDataStore.
  apply Raises_bind; [done|]. intros is_frame.
  apply Raises_bind.
  { intros w e w'. destruct is_frame; intros [= <- _]. constructor. }
  intros _. apply Raises_bind; [apply Raises_setattr|]. intros _.
  apply Raises_bind; [apply Raises_getattr_index|]. intros i.
  apply Raises_bind; [apply Raises_groupby_agg_at|]. intros s.
  apply Raises_setattr.
Qed.

Lemma Raises_get_s5cmd_path : Raises raised_by_query _get_s5cmd_path.
Proof.
  intros w e w'. rewrite get_s5cmd_path_eq.
  repeat case_match; intros [= <- _]. constructor.
Qed.

Lemma Raises_new_IDCClient d : Raises raised_by_query (new_IDCClient (Some d)).
Proof.
  unfold new_IDCClient. apply Raises_bind; [done|]. intros self.
  apply Raises_bind; [|done]. unfold __init__.
  apply Raises_bind; [apply Raises_setDataStore|]. intros _.
  apply Raises_bind; [apply Raises_get_s5cmd_path|]. intros path.
  apply Raises_setattr.
Qed.

Lemma Raises_sql self q context in_place :
  Raises raised_by_query (sql self q context in_place).
Proof.
  unfold sql. apply Raises_bind; [by destruct context|]. intros ok.
  apply Raises_bind.
  { intros w e w'. destruct ok; intros [= <- _]. constructor. }
  intros _. apply Raises_bind.
  { destruct context; [done|apply Raises_getattr_index]. }
  intros i. apply Raises_bind.
  { intros w e w'. unfold duckdb_query_to_df.
    destruct (duckdb_query w q _); intros [= <- _]. constructor. }
  intros d. destruct in_place; [|apply Raises_new_IDCClient].
  apply Raises_bind; [apply Raises_setDataStore|done].
Qed.

(** ** [raw] and [_setDataStore] *)

(** C10: on a handle in the Ready state, [raw()] returns the reference
    held in [self.data], that is the table object itself and no copy, and
    the world after the call is the world before it: the table and the
    summary of the handle are what they were. *)
Theorem raw_returns_the_table_itself w self :
  Ready self w →
  ∃ c d df,
    client_at self w = Some c ∧ data c = Some d ∧ frame_at d w = Some df
    ∧ raw self w = (Ok d, w).
Proof.
  intros (c & d & df & s & p & Hc & Hd & Hdf & _).
  exists c, d, df. split_and!; [done..|].
  unfold raw, getattr_data.
  rewrite (bind_Ok _ _ _ _ _ (receiver_client _ _ _ Hc)). by rewrite Hd.
Qed.

(** C1 fails on the code.  For every table passed, [_setDataStore] assigns
    it to [data] and then computes the summary from another object: the one
    [self.index] resolves to.  Where that is nothing, as on every instance
    of the class as it is written, the call raises AttributeError with no
    summary stored; where it is a frame, the summary stored is that of this
    frame, whatever the table passed. *)
Theorem summary_is_not_computed_from_the_table w self c d df :
  client_at self w = Some c →
  frame_at d w = Some df →
  match resolve_index c w with
  | None =>
    _setDataStore self d w
    = (Raise (AttributeError "index"), store self (with_data d c) w)
  | Some i =>
    ∀ idf s, frame_at i w = Some idf → groupby_agg idf = Ok s →
      _setDataStore self d w
      = (Ok tt, store self (with_collection_summary s (with_data d c)) w)
  end.
Proof.
  intros Hc Hd. rewrite (setDataStore_frame _ _ _ _ _ Hc Hd).
  destruct (resolve_index c w) as [i|]; [|done].
  by intros idf s -> ->.
Qed.

(** C8, as the code has it: [_setDataStore] checks the type of its
    argument and nothing else.  An argument that is no DataFrame raises
    the AssertionError and changes nothing; a DataFrame, whatever its
    columns, is assigned to [self.data], and is still there when the call
    is over, however it ends. *)
Theorem setDataStore_checks_the_type_only w self c d :
  client_at self w = Some c →
  match frame_at d w with
  | None => _setDataStore self d w = (Raise (AssertionError not_a_frame_msg), w)
  | Some df =>
    ∃ c', client_at self (_setDataStore self d w).2 = Some c'
          ∧ data c' = Some d
          ∧ frame_at d (_setDataStore self d w).2 = Some df
  end.
Proof.
  intros Hc. destruct (frame_at d w) as [df|] eqn:Hd.
  - rewrite (setDataStore_frame _ _ _ _ _ Hc Hd).
    destruct (resolve_index c w) as [i|];
      [destruct (frame_at i w) as [idf|];
         [destruct (groupby_agg idf) as [s|e]|]|];
      simpl; eexists; (split_and!;
        [by eapply client_at_store | done | by erewrite frame_at_store]).
  - by apply setDataStore_not_a_frame.
Qed.

(** ** [get] *)

(** C2 fails on the code: no call of [get] returns a handle.  Past the
    argument check, [get] runs [self.sql(query)] in copy mode and passes
    its result, an IDCClient, where a DataFrame is asserted.  Whatever the
    world, the receiver, the filters and the mode, the call raises: the
    argument error, the exception of that [sql] call, or the AssertionError
    of [_setDataStore]. *)
Theorem get_never_returns w self (cid pid stid seid : option string) in_place :
  ∃ e, (get self cid pid stid seid in_place w).1 = Raise e
       ∧ (e = AssertionError no_filter_msg
          ∨ e = AssertionError not_a_frame_msg
          ∨ (sql self (get_query cid pid stid seid) None false w).1 = Raise e).
Proof.
  destruct (get_raises w self cid pid stid seid in_place) as [H|[H|(e & H & Hsql)]];
    eauto 6.
Qed.

(** C7 fails on the code: the first of the two filtering steps yields
    nothing to filter further.  [get(collectionId="C1")] raises in every
    world and either mode, and leaves every object as it was, so that no
    row set is obtained, narrowed or not. *)
Theorem get_by_collection_raises w self in_place :
  (∃ e, (get self (Some "C1") None None None in_place w).1 = Raise e)
  ∧ keeps (length (heap w)) w (get self (Some "C1") None None None in_place w).2.
Proof.
  split.
  - destruct (get_raises w self (Some "C1") None None None in_place)
      as [H|[H|(e & H & _)]]; eauto.
  - eapply get_keeps. apply surjective_pairing.
Qed.

(** C4, as the code has it: [get] raises its argument error exactly when
    all four filters are [None].  The empty text is a filter like any
    other. *)
Theorem get_argument_error_iff_no_filter w self (cid pid stid seid : option string)
    in_place :
  (get self cid pid stid seid in_place w).1 = Raise (AssertionError no_filter_msg)
  ↔ cid = None ∧ pid = None ∧ stid = None ∧ seid = None.
Proof.
  split.
  - intros Hrun.
    destruct cid, pid, stid, seid; try done; exfalso;
      (destruct (get _ _ _ _ _ _ w) as [r w'] eqn:Hget; simpl in Hrun; subst r;
       unfold get in Hget;
       rewrite (bind_Ok _ _ w tt w) in Hget by done;
       apply bind_inv in Hget as [(e & Hsql & [= <-])|(subset & w1 & _ & Hrest)];
       [ by apply Raises_sql, raised_by_query_not_no_filter in Hsql
       | destruct in_place;
         [ apply bind_inv in Hrest as [(e & Hset & [= <-])|(? & ? & _ & ?)];
           [ by apply Raises_setDataStore, raised_by_query_not_no_filter in Hset
           | done ]
         | by apply Raises_new_IDCClient, raised_by_query_not_no_filter in Hrest ] ]).
  - by intros (-> & -> & -> & ->).
Qed.

(** ** The steps of [sql] *)

Lemma client_at_alloc_lt w o self c :
  client_at self w = Some c → client_at self (with_heap (heap w ++ [o]) w) = Some c.
Proof.
  intros Hc. unfold client_at in *. simpl.
  rewrite lookup_app_l; [done|].
  destruct (heap w !! self) eqn:E; [by eapply lookup_lt_Some|done].
Qed.

Lemma frame_at_alloc w df :
  frame_at (length (heap w)) (with_heap (heap w ++ [ODataFrame df]) w) = Some df.
Proof. unfold frame_at. simpl. by rewrite lookup_app_r, Nat.sub_diag by lia. Qed.

Lemma frame_at_alloc_lt w o i df :
  frame_at i w = Some df → frame_at i (with_heap (heap w ++ [o]) w) = Some df.
Proof.
  intros Hi. unfold frame_at in *. simpl.
  rewrite lookup_app_l; [done|].
  destruct (heap w !! i) eqn:E; [by eapply lookup_lt_Some|done].
Qed.

(** The three steps of [sql] that come before [_setDataStore]. *)
Lemma sql_steps self q context in_place w :
  sql self q context in_place w
  = match context with
    | Some v =>
      if bool_decide (is_Some (frame_at v w))
      then bind (duckdb_query_to_df q v)
             (λ d, if in_place then bind (_setDataStore self d) (λ _, ret self)
                   else new_IDCClient (Some d)) w
      else (Raise (AssertionError context_msg), w)
    | None =>
      bind (getattr_index self)
        (λ i, bind (duckdb_query_to_df q i)
           (λ d, if in_place then bind (_setDataStore self d) (λ _, ret self)
                 else new_IDCClient (Some d))) w
    end.
Proof.
  unfold sql. destruct context as [v|].
  - unfold bind at 1. unfold isinstance_DataFrame at 1.
    destruct (bool_decide (is_Some (frame_at v w))); [|done].
    unfold bind at 1. simpl. by unfold bind at 1.
  - unfold bind at 1. simpl. unfold bind at 1. simpl. done.
Qed.

(** An in-place [sql] that raises has either changed nothing, or replaced
    [data] by the result of the query and nothing else. *)
Lemma sql_in_place_raise w self c q context e w' :
  client_at self w = Some c →
  sql self q context true w = (Raise e, w') →
  w' = w
  ∨ ∃ df, duckdb_query w q (bound_index self context w) = Some df
          ∧ w' = store self (with_data (length (heap w)) c)
                   (with_heap (heap w ++ [ODataFrame df]) w).
Proof.
  intros Hc. rewrite sql_steps.
  assert (∀ i, bound_index self context w = frame_at i w →
            bind (duckdb_query_to_df q i)
              (λ d, bind (_setDataStore self d) (λ _, ret self)) w = (Raise e, w') →
            w' = w
            ∨ ∃ df, duckdb_query w q (bound_index self context w) = Some df
                    ∧ w' = store self (with_data (length (heap w)) c)
                             (with_heap (heap w ++ [ODataFrame df]) w)) as Hrest.
  { intros i Hi Hrun. unfold bind at 1, duckdb_query_to_df in Hrun.
    rewrite Hi. destruct (duckdb_query w q (frame_at i w)) as [df|];
      [|left; by injection Hrun].
    right. exists df. split; [done|]. unfold alloc in Hrun.
    apply bind_inv in Hrun as [(e' & Hset & _)|(? & ? & _ & ?)]; [|done].
    rewrite (setDataStore_frame _ _ _ _ _ (client_at_alloc_lt _ _ _ _ Hc)
               (frame_at_alloc _ _)) in Hset.
    repeat case_match; by simplify_eq. }
  destruct context as [v|].
  - destruct (bool_decide _); [by apply Hrest|]. intros [= _ <-]. by left.
  - unfold bind at 1. rewrite (getattr_index_client _ _ _ Hc).
    destruct (resolve_index c w) as [i|] eqn:Hi; [|intros [= _ <-]; by left].
    apply Hrest. unfold bound_index. rewrite Hc, Hi. done.
Qed.

(** ** Copy mode, and the transfer executable *)

Lemma get_s5cmd_path_none w : no_s5cmd w → _get_s5cmd_path w = (Raise ValueError, w).
Proof.
  intros [Hfs Hpath]. rewrite get_s5cmd_path_eq, Hfs, Hpath.
  by rewrite bool_decide_eq_false_2 by (by intros [? ?]).
Qed.

(** The constructor, when the summary step goes through: what is left is
    the search for the executable. *)
Lemma new_IDCClient_to_s5cmd d w df j jdf s :
  frame_at d w = Some df →
  cls_index w = Some j → frame_at j w = Some jdf → groupby_agg jdf = Ok s →
  (new_IDCClient (Some d) w).1
  = match (_get_s5cmd_path w).1 with
    | Ok _ => Ok (length (heap w))
    | Raise e => Raise e
    end.
Proof.
  intros Hd Hj Hjdf Hs.
  unfold new_IDCClient. unfold bind at 1. unfold alloc at 1.
  set (self := length (heap w)). set (w0 := with_heap (heap w ++ [OClient bare]) w).
  pose proof (client_at_alloc w bare) as Hbare. fold self w0 in Hbare.
  unfold bind at 1. unfold __init__. unfold bind at 1.
  rewrite (setDataStore_frame self d w0 bare df Hbare)
    by (unfold w0; by rewrite frame_at_alloc_client).
  change (resolve_index bare w0) with (cls_index w). rewrite Hj.
  unfold w0 at 1. rewrite frame_at_alloc_client, Hjdf, Hs.
  set (w2 := store self _ w0).
  unfold bind at 1. rewrite (get_s5cmd_path_eq w2), (get_s5cmd_path_eq w).
  change (fs w2) with (fs w). change (bundled_s5cmd w2) with (bundled_s5cmd w).
  change (s5cmd_on_path w2) with (s5cmd_on_path w).
  assert (∃ c2, client_at self w2 = Some c2) as [c2 Hc2]
    by (eexists; by eapply client_at_store).
  destruct (bool_decide (is_Some (fs w !! bundled_s5cmd w))); simpl.
  - by rewrite (setattr_client _ _ _ _ Hc2).
  - destruct (s5cmd_on_path w); [|done]. by rewrite (setattr_client _ _ _ _ Hc2).
Qed.

(** A copy-mode [sql] whose query is answered, where the summary step of
    the new handle goes through: what is left is the search for the
    executable. *)
Lemma sql_copy_to_s5cmd w self q context idf df j jdf s :
  bound_index self context w = Some idf →
  duckdb_query w q (Some idf) = Some df →
  cls_index w = Some j → frame_at j w = Some jdf → groupby_agg jdf = Ok s →
  (sql self q context false w).1
  = match (_get_s5cmd_path w).1 with
    | Ok _ => Ok (S (length (heap w)))
    | Raise e => Raise e
    end.
Proof.
  intros Hidx Hq Hj Hjdf Hs. rewrite sql_steps.
  assert (∀ i, frame_at i w = Some idf →
            (bind (duckdb_query_to_df q i) (λ d, new_IDCClient (Some d)) w).1
            = match (_get_s5cmd_path w).1 with
              | Ok _ => Ok (S (length (heap w)))
              | Raise e => Raise e
              end) as Hrest.
  { intros i Hi. unfold bind at 1, duckdb_query_to_df. rewrite Hi, Hq.
    unfold alloc.
    erewrite new_IDCClient_to_s5cmd; [|apply frame_at_alloc|done|..|done].
    - rewrite (get_s5cmd_path_eq (with_heap _ w)), (get_s5cmd_path_eq w). simpl.
      change (bundled_s5cmd (with_heap _ w)) with (bundled_s5cmd w).
      rewrite length_app. simpl. by rewrite Nat.add_1_r.
    - by apply frame_at_alloc_lt. }
  unfold bound_index in Hidx. destruct context as [v|].
  - rewrite bool_decide_eq_true_2 by (by rewrite Hidx). by apply Hrest.
  - destruct (client_at self w) as [c|] eqn:Hc; [|done].
    destruct (resolve_index c w) as [i|] eqn:Hi; [|done]. simpl in Hidx.
    unfold bind at 1. rewrite (getattr_index_client _ _ _ Hc), Hi.
    by apply Hrest.
Qed.

(** The constructor on a frame, in the module as it is written. *)
Lemma new_IDCClient_as_written d w df :
  cls_index w = None → frame_at d w = Some df →
  (new_IDCClient (Some d) w).1 = Raise (AttributeError "index").
Proof.
  intros Hcls Hd.
  unfold new_IDCClient. unfold bind at 1, alloc at 1.
  unfold bind at 1. unfold __init__. unfold bind at 1.
  rewrite (setDataStore_frame _ d _ bare df (client_at_alloc w bare))
    by by rewrite frame_at_alloc_client.
  unfold resolve_index. simpl. by rewrite Hcls.
Qed.

(** Every way a copy-mode [sql] ends in the module as it is written. *)
Lemma sql_copy_as_written w self q context :
  cls_index w = None →
  (sql self q context false w).1
  = match context with
    | Some v =>
      match frame_at v w with
      | None => Raise (AssertionError context_msg)
      | Some idf =>
        match duckdb_query w q (Some idf) with
        | Some _ => Raise (AttributeError "index")
        | None => Raise DuckDBError
        end
      end
    | None =>
      match client_at self w with
      | None => Raise TypeError
      | Some c =>
        match index c with
        | None => Raise (AttributeError "index")
        | Some i =>
          match duckdb_query w q (frame_at i w) with
          | Some _ => Raise (AttributeError "index")
          | None => Raise DuckDBError
          end
        end
      end
    end.
Proof.
  intros Hcls. rewrite sql_steps.
  assert (∀ i, (bind (duckdb_query_to_df q i) (λ d, new_IDCClient (Some d)) w).1
               = match duckdb_query w q (frame_at i w) with
                 | Some _ => Raise (AttributeError "index")
                 | None => Raise DuckDBError
                 end) as Htail.
  { intros i. unfold bind at 1, duckdb_query_to_df.
    destruct (duckdb_query w q (frame_at i w)) as [df|]; [|done].
    unfold alloc. apply (new_IDCClient_as_written _ _ df); [done|apply frame_at_alloc]. }
  destruct context as [v|].
  - destruct (frame_at v w) as [idf|] eqn:Hv.
    + rewrite bool_decide_eq_true_2 by eauto. by rewrite Htail, Hv.
    + by rewrite bool_decide_eq_false_2 by (by intros [? ?]).
  - unfold bind at 1. unfold getattr_index, bind at 1, receiver.
    destruct (client_at self w) as [c|]; [|done].
    destruct (index c) as [i|]; [apply Htail|]. by rewrite Hcls.
Qed.

(** With a filter given, what the [sql] call of [get] raises, [get]
    raises. *)
Lemma get_raises_what_sql_raises w self (cid pid stid seid : option string) in_place e :
  is_Some cid ∨ is_Some pid ∨ is_Some stid ∨ is_Some seid →
  (sql self (get_query cid pid stid seid) None false w).1 = Raise e →
  (get self cid pid stid seid in_place w).1 = Raise e.
Proof.
  intros Hf Hsql.
  destruct (sql self (get_query cid pid stid seid) None false w) as [r w1] eqn:E.
  simpl in Hsql. subst r. unfold get.
  destruct cid, pid, stid, seid;
    try (exfalso; destruct Hf as [[? ?]|[[? ?]|[[? ?]|[? ?]]]]; done);
    (rewrite (bind_Ok _ _ w tt w) by done; by rewrite (bind_Raise _ _ _ _ _ E)).
Qed.


(** C9 fails on the code.  In the module as it is written, the constructor
    that a copy-mode call runs raises at [self.index], in [_setDataStore],
    and does not get as far as the search for the transfer executable:
    without an executable no copy-mode [sql] and no [get] raises
    ValueError, and a copy-mode [sql] whose query was answered raises
    AttributeError.  Where the class is given an attribute [index] that
    can be summarised, the search is reached: a copy-mode [sql] whose
    query is answered raises ValueError, and so does a [get], in either
    mode, through its copy-mode [sql]. *)
Theorem copy_mode_without_s5cmd_as_written w self q context
    (cid pid stid seid : option string) in_place :
  no_s5cmd w →
  match cls_index w with
  | None =>
    (sql self q context false w).1 ≠ Raise ValueError
    ∧ (get self cid pid stid seid in_place w).1 ≠ Raise ValueError
    ∧ (∀ idf df,
         bound_index self context w = Some idf →
         duckdb_query w q (Some idf) = Some df →
         (sql self q context false w).1 = Raise (AttributeError "index"))
  | Some j =>
    ∀ jdf s, frame_at j w = Some jdf → groupby_agg jdf = Ok s →
      (∀ idf df,
         bound_index self context w = Some idf →
         duckdb_query w q (Some idf) = Some df →
         (sql self q context false w).1 = Raise ValueError)
      ∧ (∀ idf df,
           is_Some cid ∨ is_Some pid ∨ is_Some stid ∨ is_Some seid →
           bound_index self None w = Some idf →
           duckdb_query w (get_query cid pid stid seid) (Some idf) = Some df →
           (get self cid pid stid seid in_place w).1 = Raise ValueError)
  end.
Proof.
  intros Hno. destruct (cls_index w) as [j|] eqn:Hcls.
  - intros jdf s Hjdf Hs.
    assert (∀ q' context' idf df,
              bound_index self context' w = Some idf →
              duckdb_query w q' (Some idf) = Some df →
              (sql self q' context' false w).1 = Raise ValueError) as Hsql.
    { intros q' context' idf df Hidx Hq.
      rewrite (sql_copy_to_s5cmd _ _ _ _ _ _ _ _ _ Hidx Hq Hcls Hjdf Hs).
      by rewrite (get_s5cmd_path_none _ Hno). }
    split; [apply Hsql|].
    intros idf df Hf Hidx Hq. apply get_raises_what_sql_raises; [done|].
    by eapply Hsql.
  - assert (∀ q' context', (sql self q' context' false w).1 ≠ Raise ValueError) as Hsql.
    { intros q' context'. rewrite (sql_copy_as_written _ _ _ _ Hcls).
      by repeat case_match. }
    split_and!.
    + apply Hsql.
    + destruct (get_raises w self cid pid stid seid in_place) as [H|[H|(e & H & He)]].
      * by rewrite H.
      * by rewrite H.
      * rewrite H. intros [= ->]. by eapply Hsql.
    + intros idf df Hidx Hq. rewrite (sql_copy_as_written _ _ _ _ Hcls).
      unfold bound_index in Hidx. destruct context as [v|].
      * by rewrite Hidx, Hq.
      * destruct (client_at self w) as [c|]; [|done].
        unfold resolve_index in Hidx. rewrite Hcls in Hidx.
        destruct (index c) as [i|]; [|done]. simpl in Hidx. by rewrite Hidx, Hq.
Qed.

(** ** [reset] *)

Lemma replace_astype_str_cell (o : option string) :
  (if decide (Text (default "nan" o) = Text "nan") then Text "" else Text (default "nan" o))
  = Text (text_of o).
Proof.
  destruct o as [s|]; [|done]. simpl.
  destruct (decide (Text s = Text "nan")) as [Heq|Hne].
  - by injection Heq as ->.
  - rewrite bool_decide_eq_false_2; [done|]. by intros ->.
Qed.

Lemma normalise_normalised t df : normalise t = Ok df → normalised t df.
Proof.
  unfold normalise, astype_float_column. simpl.
  destruct (col_index "series_size_MB" (raw_columns t)) as [si|] eqn:Hsi; [|done].
  destruct (mapM _ _) as [rs|] eqn:Hrs; [|done]. intros [= <-].
  split; [done|]. exists si. split; [done|]. simpl.
  apply mapM_Some_1 in Hrs. rewrite <-list_fmap_compose in Hrs.
  apply Forall2_fmap_l in Hrs.
  eapply Forall2_impl; [exact Hrs|]. clear Hrs.
  intros raw row Hrow. simpl in Hrow.
  destruct (cast_float _) as [cl|] eqn:Hcast; [|done]. injection Hrow as <-.
  split; [by rewrite length_insert, !length_fmap|].
  intros i o Hi.
  assert (((λ x : cell, if decide (x = Text "nan") then Text "" else x)
             <$> ((λ x : option string, Text (default "nan" x)) <$> raw)) !! i
          = Some (Text (text_of o))) as Hcell.
  { rewrite !list_lookup_fmap, Hi. simpl. by rewrite replace_astype_str_cell. }
  destruct (decide (i = si)) as [->|Hne].
  - unfold cell_at in Hcast. rewrite Hcell in Hcast. simpl in Hcast.
    destruct (to_float (text_of o)) as [x|]; [|done]. injection Hcast as <-.
    exists x. split; [done|]. apply list_lookup_insert_eq.
    by eapply lookup_lt_Some.
  - by rewrite list_lookup_insert_ne.
Qed.

Lemma reset_loads self refresh w t df :
  (if downloads refresh w then remote w else fs w !! cache_path w)
  = Some (CsvArchive t) →
  normalise t = Ok df →
  reset self refresh w
  = _setDataStore self (length (heap w))
      (with_heap (heap w ++ [ODataFrame df])
         (if downloads refresh w
          then retrieved latest_idc_index_csv_url (cache_path w) (CsvArchive t) w
          else w)).
Proof.
  intros Hfile Hnorm. unfold reset.
  unfold bind at 1. unfold module_dir at 1.
  unfold bind at 1. unfold os_path_join at 1. fold (cache_path w).
  unfold bind at 1. unfold os_path_exists at 1.
  unfold downloads in *.
  destruct (negb (bool_decide (is_Some (fs w !! cache_path w))) || refresh).
  - unfold bind at 1. unfold urlretrieve. rewrite Hfile.
    unfold bind at 1. unfold read_csv. simpl. rewrite lookup_insert_eq.
    fold (normalise t). rewrite Hnorm. by unfold bind, lift, alloc.
  - unfold bind at 1. simpl.
    unfold bind at 1. unfold read_csv. rewrite Hfile.
    fold (normalise t). rewrite Hnorm. by unfold bind, lift, alloc.
Qed.

Lemma reset_requests self refresh w :
  requests (reset self refresh w).2
  = ((if downloads refresh w then [latest_idc_index_csv_url] else []) ++ requests w)%list.
Proof.
  assert (∀ w1, requests (bind (read_csv (cache_path w))
            (λ raw, bind (lift (astype_float_column "series_size_MB"
                                  (replace "nan" "" (astype_str raw))))
               (λ data, bind (alloc (ODataFrame data))
                  (λ data, _setDataStore self data))) w1).2 = requests w1) as Hload.
  { intros w1.
    assert (Keeps 0 (bind (read_csv (cache_path w))
            (λ raw, bind (lift (astype_float_column "series_size_MB"
                                  (replace "nan" "" (astype_str raw))))
               (λ data, bind (alloc (ODataFrame data))
                  (λ data, _setDataStore self data))))) as K.
    { apply Keeps_bind.
      { apply Keeps_unchanged. intros w2. unfold read_csv. by repeat case_match. }
      intros raw. apply Keeps_bind; [by apply Keeps_unchanged|]. intros data.
      apply Keeps_bind; [apply Keeps_alloc|]. intros d.
      apply Keeps_setDataStore, Nat.le_0_l. }
    destruct (K w1 _ _ (Nat.le_0_l _) (surjective_pairing _)) as (_ & _ & Henv).
    by rewrite Henv. }
  unfold reset.
  unfold bind at 1. unfold module_dir at 1.
  unfold bind at 1. unfold os_path_join at 1. fold (cache_path w).
  unfold bind at 1. unfold os_path_exists at 1.
  unfold downloads.
  destruct (negb (bool_decide (is_Some (fs w !! cache_path w))) || refresh).
  - unfold bind at 1. unfold urlretrieve.
    destruct (remote w); [|done]. by rewrite Hload.
  - unfold bind at 1. simpl. by rewrite Hload.
Qed.

(** C6: [reset] retrieves the archive when [refresh] is true, cached or
    not, and when no archive is cached; with [refresh] false and an archive
    cached it retrieves nothing.  The archive it then reads, the retrieved
    one or the cached one, is formatted (text throughout, the missing
    values and the text [nan] empty, [series_size_MB] as float) and handed,
    as a new frame, to [_setDataStore], which assigns it to [data]. *)
Theorem reset_retrieves_then_installs w self refresh :
  downloads true w = true
  ∧ downloads false w = negb (bool_decide (is_Some (fs w !! cache_path w)))
  ∧ requests (reset self refresh w).2
    = ((if downloads refresh w then [latest_idc_index_csv_url] else [])
       ++ requests w)%list
  ∧ ∀ c t df,
      client_at self w = Some c →
      (if downloads refresh w then remote w else fs w !! cache_path w)
      = Some (CsvArchive t) →
      normalise t = Ok df →
      fs (reset self refresh w).2
      = (if downloads refresh w then <[cache_path w := CsvArchive t]> (fs w) else fs w)
      ∧ normalised t df
      ∧ reset self refresh w
        = _setDataStore self (length (heap w))
            (with_heap (heap w ++ [ODataFrame df])
               (if downloads refresh w
                then retrieved latest_idc_index_csv_url (cache_path w) (CsvArchive t) w
                else w))
      ∧ ∃ c', client_at self (reset self refresh w).2 = Some c'
              ∧ data c' = Some (length (heap w))
              ∧ frame_at (length (heap w)) (reset self refresh w).2 = Some df.
Proof.
  split_and!.
  - unfold downloads. by rewrite orb_true_r.
  - unfold downloads. by rewrite orb_false_r.
  - apply reset_requests.
  - intros c t df Hc Hfile Hnorm.
    pose proof (reset_loads self refresh w t df Hfile Hnorm) as Hreset.
    split_and!.
    + rewrite Hreset.
      match goal with |- fs (_setDataStore ?s ?d ?w1).2 = _ =>
        destruct (Keeps_setDataStore 0 s d (Nat.le_0_l _) w1 _ _ (Nat.le_0_l _)
                    (surjective_pairing _)) as (_ & _ & ->) end.
      simpl. by destruct (downloads refresh w).
    + by apply normalise_normalised.
    + done.
    + rewrite Hreset. clear Hreset Hfile.
      assert (self < length (heap w)) as Hlt by by eapply client_at_lt.
      destruct (downloads refresh w);
        (match goal with |- context [_setDataStore ?s ?d ?w1] =>
           assert (client_at s w1 = Some c) as Hc1
             by (unfold client_at in *; simpl; by rewrite lookup_app_l);
           assert (frame_at d w1 = Some df) as Hd1
             by (unfold frame_at; simpl; by rewrite lookup_app_r, Nat.sub_diag by lia);
           rewrite (setDataStore_frame s d w1 c df Hc1 Hd1)
         end;
         repeat case_match; simpl; eexists;
         (split_and!; [by eapply client_at_store|done|by erewrite frame_at_store])).
Qed.

(** * Further properties of the methods *)

(** ** [reset], step by step *)

Lemma reset_cases self refresh w :
  reset self refresh w
  = match loaded refresh w with
    | Raise e => (Raise e, after_retrieval refresh w)
    | Ok df =>
      _setDataStore self (length (heap w))
        (with_heap (heap w ++ [ODataFrame df]) (after_retrieval refresh w))
    end.
Proof.
  unfold reset, loaded, archive, after_retrieval.
  unfold bind at 1. unfold module_dir at 1.
  unfold bind at 1. unfold os_path_join at 1. fold (cache_path w).
  unfold bind at 1. unfold os_path_exists at 1.
  unfold downloads.
  destruct (bool_decide (is_Some (fs w !! cache_path w))) eqn:Hcached;
    destruct refresh; simpl.
  - unfold bind at 1. unfold urlretrieve. destruct (remote w) as [f|]; [|done].
    unfold bind at 1. unfold read_csv. simpl. rewrite lookup_insert_eq.
    destruct f as [t|]; [|done]. fold (normalise t).
    unfold bind at 1. unfold lift. by destruct (normalise t).
  - unfold bind at 1. simpl. unfold bind at 1. unfold read_csv.
    destruct (fs w !! cache_path w) as [[t|]|]; [|done..]. fold (normalise t).
    unfold bind at 1. unfold lift. by destruct (normalise t).
  - unfold bind at 1. unfold urlretrieve. destruct (remote w) as [f|]; [|done].
    unfold bind at 1. unfold read_csv. simpl. rewrite lookup_insert_eq.
    destruct f as [t|]; [|done]. fold (normalise t).
    unfold bind at 1. unfold lift. by destruct (normalise t).
  - unfold bind at 1. unfold urlretrieve. destruct (remote w) as [f|]; [|done].
    unfold bind at 1. unfold read_csv. simpl. rewrite lookup_insert_eq.
    destruct f as [t|]; [|done]. fold (normalise t).
    unfold bind at 1. unfold lift. by destruct (normalise t).
Qed.

(** Past the retrieval step, [reset] changes nothing but the heap. *)
Lemma reset_env self refresh w :
  (reset self refresh w).2
  = with_heap (heap (reset self refresh w).2) (after_retrieval refresh w).
Proof.
  rewrite reset_cases. destruct (loaded refresh w) as [df|e].
  - match goal with |- (_setDataStore ?s ?d ?w1).2 = _ =>
      destruct (Keeps_setDataStore 0 s d (Nat.le_0_l _) w1 _ _ (Nat.le_0_l _)
                  (surjective_pairing _)) as (_ & _ & Henv) end.
    by rewrite Henv at 1.
  - simpl. by destruct (after_retrieval refresh w).
Qed.

Lemma heap_after_retrieval refresh w : heap (after_retrieval refresh w) = heap w.
Proof. unfold after_retrieval. by repeat case_match. Qed.

Lemma cls_index_after_retrieval refresh w :
  cls_index (after_retrieval refresh w) = cls_index w.
Proof. unfold after_retrieval. by repeat case_match. Qed.

(** What a [_setDataStore] that returns has done. *)
Lemma setDataStore_Ok self d w c u w' :
  client_at self w = Some c →
  _setDataStore self d w = (Ok u, w') →
  ∃ df i idf s,
    frame_at d w = Some df ∧ resolve_index c w = Some i
    ∧ frame_at i w = Some idf ∧ groupby_agg idf = Ok s
    ∧ w' = store self (with_collection_summary s (with_data d c)) w.
Proof.
  intros Hc Hrun. destruct (frame_at d w) as [df|] eqn:Hd.
  2:{ by rewrite (setDataStore_not_a_frame _ _ _ Hd) in Hrun. }
  rewrite (setDataStore_frame _ _ _ _ _ Hc Hd) in Hrun.
  destruct (resolve_index c w) as [i|] eqn:Hi; [|done].
  destruct (frame_at i w) as [idf|] eqn:Hidf; [|done].
  destruct (groupby_agg idf) as [s|] eqn:Hs; [|done].
  injection Hrun as _ <-. by exists df, i, idf, s.
Qed.

Lemma reset_Ok self refresh w c u w' :
  client_at self w = Some c →
  reset self refresh w = (Ok u, w') →
  ∃ df i idf s,
    loaded refresh w = Ok df
    ∧ resolve_index c w = Some i
    ∧ groupby_agg idf = Ok s
    ∧ frame_at i (with_heap (heap w ++ [ODataFrame df]) w) = Some idf
    ∧ w' = store self (with_collection_summary s (with_data (length (heap w)) c))
             (with_heap (heap w ++ [ODataFrame df]) (after_retrieval refresh w)).
Proof.
  intros Hc. rewrite reset_cases.
  destruct (loaded refresh w) as [df|e]; [|done]. intros Hrun.
  assert (self < length (heap w)) as Hlt by by eapply client_at_lt.
  eapply setDataStore_Ok in Hrun as (df' & i & idf & s & _ & Hi & Hidf & Hs & ->).
  2:{ unfold client_at in *. simpl. by rewrite lookup_app_l. }
  exists df, i, idf, s. split_and!; [done| |done| |done].
  - unfold resolve_index in *. simpl in Hi.
    by rewrite cls_index_after_retrieval in Hi.
  - done.
Qed.

(** X2: a [reset] that cannot load its archive (the download fails, the
    file is no archive, the column [series_size_MB] is missing or holds
    what is no number) raises the exception of the step that failed, and
    leaves every object, the handle among them, as it was. *)
Theorem reset_that_cannot_load w self refresh e :
  loaded refresh w = Raise e →
  (reset self refresh w).1 = Raise e
  ∧ heap (reset self refresh w).2 = heap w
  ∧ cls_index (reset self refresh w).2 = cls_index w.
Proof.
  intros Hload. rewrite reset_cases, Hload. simpl.
  by rewrite heap_after_retrieval, cls_index_after_retrieval.
Qed.

(** X3: once a [reset] has had an archive to read, the archive is cached,
    and a [reset(refresh=False)] that follows, on any handle, requests
    nothing. *)
Theorem reset_then_reset_uses_the_cache w self self' refresh :
  is_Some (archive refresh w) →
  downloads false (reset self refresh w).2 = false
  ∧ requests (reset self' false (reset self refresh w).2).2
    = requests (reset self refresh w).2.
Proof.
  intros Harchive.
  assert (downloads false (reset self refresh w).2 = false) as Hno.
  { rewrite reset_env. unfold downloads. rewrite orb_false_r.
    apply negb_false_iff, bool_decide_eq_true_2.
    change (is_Some (fs (after_retrieval refresh w)
                       !! cache_path (after_retrieval refresh w))).
    unfold archive, after_retrieval in *.
    destruct (downloads refresh w); [|done].
    destruct Harchive as [f ->]. simpl.
    change (cache_path (retrieved _ _ _ w)) with (cache_path w).
    by rewrite lookup_insert_eq. }
  split; [done|]. by rewrite reset_requests, Hno.
Qed.

Lemma cell_at_formatted si (raw : list (option string)) :
  cell_at si ((λ x : cell, if decide (x = Text "nan") then Text "" else x)
              <$> ((λ x : option string, Text (default "nan" x)) <$> raw))
  = Text (size_text si raw).
Proof.
  unfold cell_at, size_text. rewrite !list_lookup_fmap.
  destruct (raw !! si) as [o|]; [|done]. simpl.
  by rewrite replace_astype_str_cell.
Qed.

(** X4: the formatting of an archive fails with KeyError when it has no
    column [series_size_MB], with ValueError when some row holds in that
    column a text that is no number, and otherwise yields a frame with as
    many rows as the archive. *)
Theorem normalise_outcome t :
  match col_index "series_size_MB" (raw_columns t) with
  | None => normalise t = Raise (KeyError "series_size_MB")
  | Some si =>
    if decide (Forall (λ raw, is_Some (to_float (size_text si raw))) (raw_rows t))
    then ∃ df, normalise t = Ok df ∧ length (rows df) = length (raw_rows t)
    else normalise t = Raise ValueError
  end.
Proof.
  unfold normalise, astype_float_column. simpl.
  destruct (col_index "series_size_MB" (raw_columns t)) as [si|]; [|done].
  destruct (mapM _ _) as [rs|] eqn:Hrs.
  - rewrite decide_True.
    + eexists. split; [done|]. simpl.
      apply mapM_Some_1, Forall2_length in Hrs. by rewrite !length_fmap in Hrs.
    + pose proof (mapM_is_Some_1 _ _ (mk_is_Some _ _ Hrs)) as Hsome.
      rewrite !Forall_fmap in Hsome.
      eapply Forall_impl; [exact Hsome|]. intros raw. simpl.
      rewrite cell_at_formatted. simpl.
      destruct (to_float (size_text si raw)); [by eauto|]. by intros [? ?].
  - rewrite decide_False; [done|]. intros Hall.
    apply mapM_None_1, Exists_exists in Hrs as (r & Hr & Hnone).
    apply list_elem_of_fmap in Hr as (r1 & -> & Hr).
    apply list_elem_of_fmap in Hr as (raw & -> & Hraw).
    rewrite Forall_forall in Hall. destruct (Hall raw Hraw) as [x Hx].
    rewrite cell_at_formatted in Hnone. simpl in Hnone. by rewrite Hx in Hnone.
Qed.

(** ** The constructor, as the module is written *)

(** X5: in the module as it is written, where the class has no attribute
    [index], no call [IDCClient(...)] returns, with or without [data]; on
    a DataFrame what it raises is the AttributeError of [self.index]. *)
Theorem constructor_never_returns_as_written w data :
  cls_index w = None →
  (∃ e, (new_IDCClient data w).1 = Raise e)
  ∧ (∀ d df, data = Some d → frame_at d w = Some df →
       (new_IDCClient data w).1 = Raise (AttributeError "index")).
Proof.
  intros Hcls. split.
  - destruct (new_IDCClient data w) as [[l|e] w'] eqn:Hrun; [|by eauto].
    exfalso. unfold new_IDCClient in Hrun. unfold bind at 1, alloc at 1 in Hrun.
    apply bind_inv in Hrun as [(e & _ & ?)|([] & w1 & Hinit & _)]; [done|].
    unfold __init__ in Hinit.
    apply bind_inv in Hinit as [(e & _ & ?)|([] & w2 & Hset & _)]; [done|].
    pose proof (client_at_alloc w bare) as Hbare.
    destruct data as [d|].
    + apply (setDataStore_Ok _ _ _ _ _ _ Hbare) in Hset as (_ & i & _ & _ & _ & Hi & _).
      unfold resolve_index in Hi. simpl in Hi. by rewrite Hcls in Hi.
    + apply (reset_Ok _ _ _ _ _ _ Hbare) in Hset as (_ & i & _ & _ & _ & Hi & _).
      unfold resolve_index in Hi. simpl in Hi. by rewrite Hcls in Hi.
  - intros d df -> Hd.
    unfold new_IDCClient. unfold bind at 1, alloc at 1.
    unfold bind at 1. unfold __init__. unfold bind at 1.
    rewrite (setDataStore_frame _ d _ bare df (client_at_alloc w bare))
      by by rewrite frame_at_alloc_client.
    unfold resolve_index. simpl. by rewrite Hcls.
Qed.

(** X6: a call [IDCClient(...)] that returns, with or without [data],
    returns a new object in the Ready state: it holds a table, a summary
    and the path of the transfer executable. *)
Theorem constructor_returns_a_ready_handle w data l w' :
  new_IDCClient data w = (Ok l, w') →
  heap w !! l = None ∧ Ready l w'.
Proof.
  intros Hrun. unfold new_IDCClient in Hrun. unfold bind at 1, alloc at 1 in Hrun.
  apply bind_inv in Hrun as [(e & _ & ?)|([] & w1 & Hinit & Hret)]; [done|].
  injection Hret as <- <-. split; [by apply lookup_ge_None_2|].
  unfold __init__ in Hinit.
  apply bind_inv in Hinit as [(e & _ & ?)|([] & w2 & Hset & Hrest)]; [done|].
  apply bind_inv in Hrest as [(e & _ & ?)|(p & w3 & Hpath & Hattr)]; [done|].
  pose proof (get_s5cmd_path_world w2) as Hw3. rewrite Hpath in Hw3. simpl in Hw3.
  subst w3. apply setattr_Ok in Hattr as (c2 & Hc2 & ->).
  pose proof (client_at_alloc w bare) as Hbare.
  assert (∃ d df s, client_at (length (heap w)) w2
                    = Some (with_collection_summary s (with_data d bare))
                    ∧ frame_at d w2 = Some df) as (d & df & s & Hc & Hd).
  { destruct data as [d|].
    - apply (setDataStore_Ok _ _ _ _ _ _ Hbare) in Hset
        as (df & i & idf & s & Hd & _ & _ & _ & ->).
      exists d, df, s. split; [by eapply client_at_store|].
      by erewrite frame_at_store.
    - apply (reset_Ok _ _ _ _ _ _ Hbare) in Hset
        as (df & i & idf & s & _ & _ & _ & _ & ->).
      assert (length (heap w) < length (heap w ++ [OClient bare])) as Hlt
        by (rewrite length_app; simpl; lia).
      eexists _, df, s. split.
      + eapply client_at_store. unfold client_at in *. simpl in *.
        by rewrite lookup_app_l.
      + erewrite frame_at_store.
        * unfold frame_at. simpl.
          by rewrite lookup_app_r, Nat.sub_diag by lia.
        * unfold client_at in *. simpl in *. by rewrite lookup_app_l. }
  rewrite Hc in Hc2. injection Hc2 as <-.
  eexists _, d, df, s, p. split_and!; [by eapply client_at_store|done| |done|done].
  by erewrite frame_at_store.
Qed.

(** ** [sql] in place *)

Lemma in_place_tail self c q i0 w h w' :
  client_at self w = Some c →
  bind (duckdb_query_to_df q i0)
    (λ d, bind (_setDataStore self d) (λ _, ret self)) w = (Ok h, w')
  ↔ h = self
    ∧ ∃ df i idf s,
        duckdb_query w q (frame_at i0 w) = Some df
        ∧ resolve_index c w = Some i
        ∧ frame_at i (with_heap (heap w ++ [ODataFrame df]) w) = Some idf
        ∧ groupby_agg idf = Ok s
        ∧ w' = store self (with_collection_summary s (with_data (length (heap w)) c))
                 (with_heap (heap w ++ [ODataFrame df]) w).
Proof.
  intros Hc. unfold bind at 1, duckdb_query_to_df.
  destruct (duckdb_query w q (frame_at i0 w)) as [df|].
  2:{ split; [done|]. by intros (_ & ? & ? & ? & ? & ? & _). }
  unfold alloc. unfold bind.
  rewrite (setDataStore_frame _ _ _ _ _ (client_at_alloc_lt _ (ODataFrame df) _ _ Hc)
             (frame_at_alloc _ _)).
  change (resolve_index c (with_heap _ w)) with (resolve_index c w).
  destruct (resolve_index c w) as [i|].
  2:{ split; [done|]. by intros (_ & ? & ? & ? & ? & _ & ? & _). }
  destruct (frame_at i _) as [idf|] eqn:Hidf.
  2:{ split; [done|]. intros (_ & ? & ? & ? & ? & [= <-] & [= <-] & Hidf' & _).
      by rewrite Hidf in Hidf'. }
  destruct (groupby_agg idf) as [s|e] eqn:Hs.
  - split.
    + intros [= <- <-]. split; [done|]. by exists df, i, idf, s.
    + intros (-> & df' & i' & idf' & s' & [= <-] & [= <-] & Hidf' & Hs' & ->).
      rewrite Hidf in Hidf'. injection Hidf' as <-. rewrite Hs in Hs'.
      by injection Hs' as <-.
  - split; [done|].
    intros (_ & df' & i' & idf' & s' & [= <-] & [= <-] & Hidf' & Hs' & _).
    rewrite Hidf in Hidf'. injection Hidf' as <-. by rewrite Hs in Hs'.
Qed.

(** When, and with what, an in-place [sql] returns. *)
Lemma sql_in_place_Ok w self c q context h w' :
  client_at self w = Some c →
  sql self q context true w = (Ok h, w')
  ↔ h = self
    ∧ match context with Some v => is_Some (frame_at v w) | None => True end
    ∧ ∃ df i idf s,
        duckdb_query w q (bound_index self context w) = Some df
        ∧ resolve_index c w = Some i
        ∧ frame_at i (with_heap (heap w ++ [ODataFrame df]) w) = Some idf
        ∧ groupby_agg idf = Ok s
        ∧ w' = store self (with_collection_summary s (with_data (length (heap w)) c))
                 (with_heap (heap w ++ [ODataFrame df]) w).
Proof.
  intros Hc. rewrite sql_steps. unfold bound_index. destruct context as [v|].
  - destruct (bool_decide (is_Some (frame_at v w))) eqn:Hv.
    + apply bool_decide_eq_true_1 in Hv. rewrite (in_place_tail _ _ _ _ _ _ _ Hc).
      tauto.
    + apply bool_decide_eq_false_1 in Hv. split; [done|]. tauto.
  - rewrite Hc. unfold bind at 1. rewrite (getattr_index_client _ _ _ Hc).
    destruct (resolve_index c w) as [i|] eqn:Hi; simpl.
    + rewrite (in_place_tail _ _ _ _ _ _ _ Hc), Hi. tauto.
    + split; [done|]. by intros (_ & _ & ? & ? & ? & ? & _ & ? & _).
Qed.

(** X7: an in-place [sql] on a handle returns exactly when the context,
    if given, is a DataFrame, the engine answers the query, and
    [self.index] resolves to a frame that can be summarised.  It then
    returns the receiver itself, whose [data] is a new frame holding the
    answer and whose summary is the one just computed; the path of the
    transfer executable is not looked up again. *)
Theorem sql_in_place_returns_iff w self c q context h w' :
  client_at self w = Some c →
  sql self q context true w = (Ok h, w')
  ↔ h = self
    ∧ match context with Some v => is_Some (frame_at v w) | None => True end
    ∧ ∃ df i idf s,
        duckdb_query w q (bound_index self context w) = Some df
        ∧ resolve_index c w = Some i
        ∧ frame_at i (with_heap (heap w ++ [ODataFrame df]) w) = Some idf
        ∧ groupby_agg idf = Ok s
        ∧ w' = store self (with_collection_summary s (with_data (length (heap w)) c))
                 (with_heap (heap w ++ [ODataFrame df]) w).
Proof. apply sql_in_place_Ok. Qed.

(** The worlds an in-place [sql] can end in. *)
Lemma sql_in_place_world w self c q context :
  client_at self w = Some c →
  (sql self q context true w).2 = w
  ∨ ∃ df c',
      duckdb_query w q (bound_index self context w) = Some df
      ∧ (c' = with_data (length (heap w)) c
         ∨ ∃ s, c' = with_collection_summary s (with_data (length (heap w)) c))
      ∧ (sql self q context true w).2
        = store self c' (with_heap (heap w ++ [ODataFrame df]) w).
Proof.
  intros Hc. destruct (sql self q context true w) as [[h|e] w'] eqn:Hrun.
  - apply (sql_in_place_Ok _ _ _ _ _ _ _ Hc) in Hrun
      as (_ & _ & df & i & idf & s & Hq & _ & _ & _ & ->).
    right. exists df. eexists. split_and!; [done| |done]. eauto.
  - destruct (sql_in_place_raise _ _ _ _ _ _ _ Hc Hrun) as [->|(df & Hq & ->)];
      [by left|right].
    exists df. eexists. split_and!; [done| |done]. eauto.
Qed.

(** ** A failure in place *)






(** ** What an in-place [sql] writes to *)

(** X8: an in-place [sql] on a handle writes to the receiver and to no
    other object that existed before the call, however the call ends. *)
Theorem sql_in_place_writes_to_the_receiver_only w self c q context l o :
  client_at self w = Some c →
  l ≠ self →
  heap w !! l = Some o →
  heap (sql self q context true w).2 !! l = Some o.
Proof.
  intros Hc Hne Hl.
  destruct (sql_in_place_world w self c q context Hc) as [->|(df & c' & _ & _ & ->)];
    [done|].
  unfold store. simpl. rewrite list_lookup_insert_ne by done.
  rewrite lookup_app_l; [done|]. by eapply lookup_lt_Some.
Qed.

(** X9: a handle in the Ready state is in the Ready state after an
    in-place [sql], whether the call returns or raises. *)
Theorem sql_in_place_keeps_ready w self q context :
  Ready self w → Ready self (sql self q context true w).2.
Proof.
  intros (c & d & df & s & p & Hc & Hd & Hdf & Hs & Hp).
  destruct (sql_in_place_world w self c q context Hc)
    as [->|(df' & c' & _ & Hc' & ->)].
  { by exists c, d, df, s, p. }
  pose proof (client_at_alloc_lt _ (ODataFrame df') _ _ Hc) as Hc1.
  assert (∃ s', collection_summary c' = Some s') as [s' Hs'].
  { destruct Hc' as [->|[s' ->]]; simpl; eauto. }
  exists c', (length (heap w)), df', s', p. split_and!.
  - by eapply client_at_store.
  - by destruct Hc' as [->|[? ->]].
  - erewrite frame_at_store; [apply frame_at_alloc|done].
  - done.
  - by destruct Hc' as [->|[? ->]].
Qed.

(** X10: after an in-place [sql] that returned, [raw()] on the handle
    returns the frame that holds the answer of the engine. *)
Theorem raw_after_sql_in_place w self c q context h w' :
  client_at self w = Some c →
  sql self q context true w = (Ok h, w') →
  ∃ d df, raw h w' = (Ok d, w')
          ∧ heap w !! d = None
          ∧ frame_at d w' = Some df
          ∧ duckdb_query w q (bound_index self context w) = Some df.
Proof.
  intros Hc Hrun.
  apply (sql_in_place_Ok _ _ _ _ _ _ _ Hc) in Hrun
    as (-> & _ & df & i & idf & s & Hq & _ & _ & _ & ->).
  pose proof (client_at_alloc_lt _ (ODataFrame df) _ _ Hc) as Hc1.
  exists (length (heap w)), df. split_and!; [|by apply lookup_ge_None_2| |done].
  - unfold raw, getattr_data.
    by rewrite (bind_Ok _ _ _ _ _
                  (receiver_client _ _ _ (client_at_store _ _ _ _ Hc1))).
  - erewrite frame_at_store; [apply frame_at_alloc|done].
Qed.

(** X11: [sql], in either mode, raises without having changed anything
    when the context is no DataFrame (AssertionError), when there is no
    context and [self.index] does not resolve (AttributeError), and when
    the engine rejects the query (its own error). *)
Theorem sql_fails_early w self q context in_place :
  (∀ v, context = Some v → frame_at v w = None →
     sql self q context in_place w = (Raise (AssertionError context_msg), w))
  ∧ (∀ c, context = None → client_at self w = Some c → resolve_index c w = None →
       sql self q context in_place w = (Raise (AttributeError "index"), w))
  ∧ (match context with
     | Some v => is_Some (frame_at v w)
     | None => ∃ c i, client_at self w = Some c ∧ resolve_index c w = Some i
     end →
     duckdb_query w q (bound_index self context w) = None →
     sql self q context in_place w = (Raise DuckDBError, w)).
Proof.
  rewrite sql_steps. split_and!.
  - intros v -> Hv. rewrite bool_decide_eq_false_2; [done|]. rewrite Hv. by intros [? ?].
  - intros c -> Hc Hi. unfold bind at 1. by rewrite (getattr_index_client _ _ _ Hc), Hi.
  - unfold bound_index. destruct context as [v|].
    + intros Hv Hq. rewrite bool_decide_eq_true_2 by done.
      unfold bind at 1, duckdb_query_to_df. by rewrite Hq.
    + intros (c & i & Hc & Hi) Hq. rewrite Hc, Hi in Hq. simpl in Hq.
      unfold bind at 1. rewrite (getattr_index_client _ _ _ Hc), Hi.
      unfold bind at 1, duckdb_query_to_df. by rewrite Hq.
Qed.

(** ** [raw] after [_setDataStore] *)

(** X12: after [_setDataStore] was called with a DataFrame, [raw()]
    returns that very object, whether the call returned or raised; after
    it was called with anything else, the world is what it was. *)
Theorem raw_after_setDataStore w self c d :
  client_at self w = Some c →
  match frame_at d w with
  | Some _ =>
    raw self (_setDataStore self d w).2 = (Ok d, (_setDataStore self d w).2)
  | None => (_setDataStore self d w).2 = w
  end.
Proof.
  intros Hc. destruct (frame_at d w) as [df|] eqn:Hd.
  - assert (∃ c', client_at self (_setDataStore self d w).2 = Some c'
                  ∧ data c' = Some d) as (c' & Hc' & Hd').
    { rewrite (setDataStore_frame _ _ _ _ _ Hc Hd).
      repeat case_match; simpl; eexists; (split; [by eapply client_at_store|done]). }
    unfold raw, getattr_data.
    rewrite (bind_Ok _ _ _ _ _ (receiver_client _ _ _ Hc')). by rewrite Hd'.
  - by rewrite (setDataStore_not_a_frame _ _ _ Hd).
Qed.

(** ** The search for the transfer executable *)

(** X1: [_get_s5cmd_path] prefers the executable bundled with the module
    ([s5cmd.exe] on Windows, [s5cmd] on every other system); failing that
    it answers the bare name [s5cmd] when one is on the path; failing
    that it raises ValueError.  It changes nothing. *)
Theorem s5cmd_path_resolution w :
  (_get_s5cmd_path w).2 = w
  ∧ (is_Some (fs w !! bundled_s5cmd w) →
       (_get_s5cmd_path w).1 = Ok (bundled_s5cmd w))
  ∧ (fs w !! bundled_s5cmd w = None → s5cmd_on_path w = true →
       (_get_s5cmd_path w).1 = Ok "s5cmd")
  ∧ (fs w !! bundled_s5cmd w = None → s5cmd_on_path w = false →
       (_get_s5cmd_path w).1 = Raise ValueError).
Proof.
  rewrite get_s5cmd_path_eq. split_and!.
  - by repeat case_match.
  - intros Hb. by rewrite bool_decide_eq_true_2.
  - intros Hb Hp. rewrite Hb, Hp. by rewrite bool_decide_eq_false_2 by by intros [? ?].
  - intros Hb Hp. rewrite Hb, Hp. by rewrite bool_decide_eq_false_2 by by intros [? ?].
Qed.

(** ** The summary of a formatted archive *)

Lemma nums_all_Num si (rs : list (list cell)) :
  Forall (λ r, ∃ x, cell_at si r = Num x) rs → is_Some (nums (cell_at si <$> rs)).
Proof.
  induction 1 as [|r rs [x Hx] _ [xs IH]]; [by eexists|].
  change (nums (cell_at si <$> r :: rs))
    with (match cell_at si r with
          | Num x => (x ::.) <$> nums (cell_at si <$> rs)
          | Text _ => None
          end).
  rewrite Hx, IH. by eexists.
Qed.

Lemma agg_groups_all_Num ki mi si (rs : list (list cell)) (keys : list cell) :
  Forall (λ r, ∃ x, cell_at si r = Num x) rs →
  ∃ s, agg_groups ki mi si rs keys = Ok s.
Proof.
  intros Hrs. induction keys as [|k keys [s IH]]; simpl; [by eauto|].
  unfold agg_group, sum_cells.
  destruct (nums_all_Num si (group_rows ki k rs)) as [xs ->].
  { rewrite Forall_forall in *. intros r Hr. apply Hrs.
    unfold group_rows in Hr. by apply list_elem_of_filter in Hr as [_ ?]. }
  rewrite IH. by eauto.
Qed.

Lemma col_index_elem_of name (cols : list string) :
  name ∈ cols → is_Some (col_index name cols).
Proof.
  intros Hin. unfold col_index.
  destruct (list_find_elem_of (λ x : string, x = name) cols name Hin eq_refl) as [[i x] ->].
  by eauto.
Qed.

(** X14: the frame that [reset] formats can always be summarised: where
    the empty text is no number, an archive that formats and has the
    columns [collection_id] and [Modality] gives a frame on which
    [groupby_agg] returns. *)
Theorem formatted_archive_has_a_summary t df :
  to_float "" = None →
  normalise t = Ok df →
  "collection_id" ∈ raw_columns t →
  "Modality" ∈ raw_columns t →
  ∃ s, groupby_agg df = Ok s.
Proof.
  intros Hempty Hnorm Hcid Hmod.
  unfold normalise, astype_float_column in Hnorm. simpl in Hnorm.
  destruct (col_index "series_size_MB" (raw_columns t)) as [si|] eqn:Hsi; [|done].
  destruct (mapM _ _) as [rs|] eqn:Hrs; [|done]. injection Hnorm as <-.
  unfold groupby_agg. simpl.
  destruct (col_index_elem_of _ _ Hcid) as [ki ->].
  destruct (col_index_elem_of _ _ Hmod) as [mi ->]. rewrite Hsi.
  apply agg_groups_all_Num.
  apply mapM_Some_1 in Hrs. rewrite <-list_fmap_compose in Hrs.
  apply Forall2_fmap_l in Hrs.
  apply Forall_forall. intros row Hrow.
  apply list_elem_of_lookup in Hrow as [j Hj].
  destruct (Forall2_lookup_r _ _ _ _ _ Hrs Hj) as (raw & _ & Hcast).
  simpl in Hcast. rewrite cell_at_formatted in Hcast. simpl in Hcast.
  destruct (to_float (size_text si raw)) as [x|] eqn:Hx; [|done].
  injection Hcast as <-. exists x. unfold cell_at.
  rewrite list_lookup_insert_eq; [done|]. rewrite !length_fmap.
  destruct (decide (si < length raw)) as [|Hshort]; [done|]. exfalso.
  unfold size_text in Hx. rewrite lookup_ge_None_2 in Hx by lia. simpl in Hx.
  by rewrite Hempty in Hx.
Qed.

(** ** The text of the query *)

Lemma string_app_assoc (s1 s2 s3 : string) :
  (s1 +:+ s2) +:+ s3 = s1 +:+ (s2 +:+ s3).
Proof.
  induction s1 as [|a s1 IH]; [done|].
  unfold String.append; fold String.append. by f_equal.
Qed.

(** X15: [get] splices the values of its filters into the query as they
    are: a collection id that holds a quote, the word AND and the start of
    a second clause gives, to the letter, the query of two filters. *)
Theorem get_query_splices_values (a b : string) (stid seid : option string) :
  get_query (Some (a +:+ "' AND PatientID='" +:+ b)) None stid seid
  = get_query (Some a) (Some b) stid seid.
Proof.
  unfold get_query, where_clause, clause.
  destruct stid, seid; simpl; rewrite !string_app_assoc; reflexivity.
Qed.

(** ** [_setDataStore] and [reset], once more *)

(** The worlds a [_setDataStore] on a handle can end in. *)
Lemma setDataStore_world w self c d :
  client_at self w = Some c →
  (_setDataStore self d w).2 = w
  ∨ ∃ c', (c' = with_data d c ∨ ∃ s, c' = with_collection_summary s (with_data d c))
          ∧ (_setDataStore self d w).2 = store self c' w.
Proof.
  intros Hc. destruct (frame_at d w) as [df|] eqn:Hd.
  - right. rewrite (setDataStore_frame _ _ _ _ _ Hc Hd).
    repeat case_match; simpl; eauto.
  - left. by rewrite (setDataStore_not_a_frame _ _ _ Hd).
Qed.

(** X16: [_setDataStore] is idempotent: called a second time on the same
    object, it ends as it ended the first time, and leaves the world the
    first call left. *)
Theorem setDataStore_twice w self c d :
  client_at self w = Some c →
  _setDataStore self d (_setDataStore self d w).2 = _setDataStore self d w.
Proof.
  intros Hc. destruct (frame_at d w) as [df|] eqn:Hd.
  2:{ rewrite (setDataStore_not_a_frame _ _ _ Hd). simpl.
      by rewrite (setDataStore_not_a_frame _ _ _ Hd). }
  rewrite (setDataStore_frame _ _ _ _ _ Hc Hd).
  assert (∀ c1, index c1 = index c →
            _setDataStore self d (store self c1 w)
            = match resolve_index c w with
              | None => (Raise (AttributeError "index"),
                         store self (with_data d c1) w)
              | Some i =>
                match frame_at i w with
                | None => (Raise (AttributeError "groupby"),
                           store self (with_data d c1) w)
                | Some idf =>
                  match groupby_agg idf with
                  | Raise e => (Raise e, store self (with_data d c1) w)
                  | Ok s => (Ok tt, store self
                               (with_collection_summary s (with_data d c1)) w)
                  end
                end
              end) as Hagain.
  { intros c1 Hindex.
    rewrite (setDataStore_frame self d (store self c1 w) c1 df)
      by (by eapply client_at_store || by erewrite frame_at_store).
    assert (resolve_index c1 (store self c1 w) = resolve_index c w) as ->
      by (unfold resolve_index; simpl; by rewrite Hindex).
    destruct (resolve_index c w) as [i|]; [|by rewrite store_store].
    erewrite frame_at_store by done.
    destruct (frame_at i w) as [idf|]; [|by rewrite store_store].
    destruct (groupby_agg idf); by rewrite store_store. }
  destruct (resolve_index c w) as [i|]; simpl.
  - destruct (frame_at i w) as [idf|]; simpl.
    + destruct (groupby_agg idf) as [s|e]; simpl; by rewrite Hagain.
    + by rewrite Hagain.
  - by rewrite Hagain.
Qed.

(** X17: [reset] on a handle writes to the receiver and to no other
    object that existed before the call, however the call ends. *)
Theorem reset_writes_to_the_receiver_only w self c refresh l o :
  client_at self w = Some c →
  l ≠ self →
  heap w !! l = Some o →
  heap (reset self refresh w).2 !! l = Some o.
Proof.
  intros Hc Hne Hl. rewrite reset_cases.
  destruct (loaded refresh w) as [df|e]; simpl; [|by rewrite heap_after_retrieval].
  assert (self < length (heap w)) as Hlt by by eapply client_at_lt.
  assert (l < length (heap w)) as Hlt' by by eapply lookup_lt_Some.
  match goal with |- heap (_setDataStore ?s ?d ?w1).2 !! _ = _ =>
    assert (client_at s w1 = Some c) as Hc1
      by (unfold client_at in *; simpl; by rewrite lookup_app_l);
    destruct (setDataStore_world w1 s c d Hc1) as [->|(c' & _ & ->)]
  end; simpl.
  - by rewrite lookup_app_l.
  - rewrite list_lookup_insert_ne by done. by rewrite lookup_app_l.
Qed.

End Facts.

(** * The examples, run *)

Example scenario_summary_computed : groupby_agg scenario = Ok scenario_summary.
Proof. reflexivity. Qed.

Example ready_handle_Ready : Ready 1 world1.
Proof. by exists ready_handle, 0, scenario, scenario_summary, "s5cmd". Qed.

Lemma raw_returns_the_table_itself_witness :
  Ready 1 world1
  ∧ ∃ c d df,
      client_at 1 world1 = Some c ∧ data c = Some d ∧ frame_at d world1 = Some df
      ∧ raw 1 world1 = (Ok d, world1).
Proof.
  split; [exact ready_handle_Ready|].
  exact (raw_returns_the_table_itself world1 1 ready_handle_Ready).
Defined.

(** [IDCClient(data=<the scenario table>)], in the module as it is
    written: the table is assigned to [data], then [self.index], which
    nothing has set, raises AttributeError, and no summary is stored. *)
Example constructor_raises_on_the_scenario :
  (new_IDCClient (Some 0) world1).1 = Raise (AttributeError "index")
  ∧ client_at 4 (new_IDCClient (Some 0) world1).2 = Some (with_data 0 bare).
Proof. split; reflexivity. Qed.

(** With an attribute [index] put on the class from outside, the call goes
    through, and the summary stored is that of the frame [index] refers
    to, not that of the table passed: collection A of the table, whose
    sizes sum to 15, has no entry in it. *)
Example summary_of_another_frame :
  summary_lookup (Text "A") scenario_summary
  = Some {| Modality := [Text "CT"; Text "MR"]; series_size_MB := Num 15%Z |}
  ∧ (new_IDCClient (Some 0) world1_patched).1 = Ok 4
  ∧ ∃ c s, client_at 4 (new_IDCClient (Some 0) world1_patched).2 = Some c
     ∧ data c = Some 0 ∧ collection_summary c = Some s
     ∧ groupby_agg other_collection = Ok s
     ∧ summary_lookup (Text "A") s = None.
Proof.
  split_and!; [reflexivity..|].
  eexists _, _. split_and!; reflexivity.
Qed.

Lemma summary_is_not_computed_from_the_table_witness :
  client_at 1 world1 = Some ready_handle
  ∧ frame_at 0 world1 = Some scenario
  ∧ _setDataStore 1 0 world1
    = (Raise (AttributeError "index"), store 1 (with_data 0 ready_handle) world1).
Proof.
  split; [reflexivity|]. split; [reflexivity|].
  exact (summary_is_not_computed_from_the_table world1 1 ready_handle 0 scenario
           eq_refl eq_refl).
Defined.

(** C8 fails on the code as the specification states it: the frame at 2 has none
    of the three columns, and [_setDataStore] installs it as [data] all the
    same, both when the call raises afterwards and when it returns. *)
Lemma setDataStore_installs_a_table_without_the_columns :
  frame_at 2 world1 = Some patients_only
  ∧ col_index "collection_id" (columns patients_only) = None
  ∧ col_index "Modality" (columns patients_only) = None
  ∧ col_index "series_size_MB" (columns patients_only) = None
  ∧ (_setDataStore 1 2 world1).1 = Raise (AttributeError "index")
  ∧ data <$> client_at 1 (_setDataStore 1 2 world1).2 = Some (Some 2)
  ∧ (_setDataStore 1 2 world1_patched).1 = Ok tt
  ∧ data <$> client_at 1 (_setDataStore 1 2 world1_patched).2 = Some (Some 2).
Proof. split_and!; reflexivity. Qed.

Lemma setDataStore_checks_the_type_only_witness :
  client_at 1 world1 = Some ready_handle
  ∧ ∃ c', client_at 1 (_setDataStore 1 2 world1).2 = Some c'
          ∧ data c' = Some 2
          ∧ frame_at 2 (_setDataStore 1 2 world1).2 = Some patients_only.
Proof.
  split; [reflexivity|].
  exact (setDataStore_checks_the_type_only world1 1 ready_handle 2 eq_refl).
Defined.


(** C4 fails on the code as the specification states it: with the empty text for
    [collectionId], and nothing else, [get] passes its argument check, and
    builds and runs a query; what it raises is the AttributeError of
    [self.index]. *)
Lemma get_takes_the_empty_text :
  get_query (Some "") None None None = base_query +:+ "WHERE collection_id=''"
  ∧ (get 1 (Some "") None None None false world1).1 = Raise (AttributeError "index")
  ∧ (get 1 (Some "") None None None false world1).1
    ≠ Raise (AssertionError no_filter_msg).
Proof. split_and!; [reflexivity..|done]. Qed.


(** The engine answers the queries of [get]. *)
Example filter_engine_answers :
  filter_engine (get_query (Some "A") None None None) (Some scenario) = Some collection_A
  ∧ filter_engine (get_query (Some "A") (Some "P2") None None) (Some scenario)
    = Some {| columns := columns scenario;
              rows := [ [Text "A"; Text "P2"; Text "1.2"; Text "1.2.1"; Text "MR";
                         Num 5%Z] ] |}
  ∧ filter_engine (get_query (Some "A") None None None) (Some patients_only) = None
  ∧ filter_engine "SELECT * FROM index" (Some scenario) = Some scenario
  ∧ filter_engine "DROP TABLE index" (Some scenario) = None.
Proof. split_and!; reflexivity. Qed.


Lemma copy_mode_without_s5cmd_as_written_witness :
  no_s5cmd world1_no_s5cmd
  ∧ (sql 1 "SELECT * FROM index" (Some 0) false world1_no_s5cmd).1
    = Raise (AttributeError "index")
  ∧ (sql 1 "SELECT * FROM index" (Some 0) false world1_no_s5cmd).1 ≠ Raise ValueError
  ∧ (get 1 (Some "A") None None None false world1_no_s5cmd).1 ≠ Raise ValueError
  ∧ no_s5cmd world_filtering
  ∧ (sql 1 "SELECT * FROM index" None false world_filtering).1 = Raise ValueError
  ∧ (get 1 (Some "A") None None None false world_filtering).1 = Raise ValueError
  ∧ (get 1 (Some "A") None None None true world_filtering).1 = Raise ValueError.
Proof.
  assert (no_s5cmd world1_no_s5cmd) as Hno by by split.
  assert (no_s5cmd world_filtering) as Hno' by by split.
  pose proof (copy_mode_without_s5cmd_as_written world1_no_s5cmd 1
                "SELECT * FROM index" (Some 0) (Some "A") None None None false Hno)
    as (Hsql & Hget & Hattr).
  pose proof (copy_mode_without_s5cmd_as_written world_filtering 1
                "SELECT * FROM index" None (Some "A") None None None false Hno'
                scenario scenario_summary eq_refl eq_refl) as (Hvalue & Hvalue_get).
  pose proof (copy_mode_without_s5cmd_as_written world_filtering 1
                "SELECT * FROM index" None (Some "A") None None None true Hno'
                scenario scenario_summary eq_refl eq_refl) as (_ & Hvalue_get').
  split; [exact Hno|].
  split; [exact (Hattr scenario scenario eq_refl eq_refl)|].
  split; [exact Hsql|]. split; [exact Hget|].
  split; [exact Hno'|].
  split; [exact (Hvalue scenario scenario eq_refl eq_refl)|].
  split.
  - exact (Hvalue_get scenario collection_A (or_introl (mk_is_Some _ _ eq_refl))
             eq_refl eq_refl).
  - exact (Hvalue_get' scenario collection_A (or_introl (mk_is_Some _ _ eq_refl))
             eq_refl eq_refl).
Defined.

Lemma reset_retrieves_then_installs_witness :
  client_at 1 world_cached = Some ready_handle
  ∧ (if downloads true world_cached then remote world_cached
     else fs world_cached !! cache_path world_cached) = Some (CsvArchive released_csv)
  ∧ normalise released_csv = Ok released_frame
  ∧ requests (reset 1 true world_cached).2 = [latest_idc_index_csv_url]
  ∧ requests (reset 1 false world_cached).2 = []
  ∧ ∃ c', client_at 1 (reset 1 true world_cached).2 = Some c'
          ∧ data c' = Some 4
          ∧ frame_at 4 (reset 1 true world_cached).2 = Some released_frame.
Proof.
  split; [reflexivity|]. split; [reflexivity|]. split; [reflexivity|].
  pose proof (reset_retrieves_then_installs world_cached 1 true)
    as (_ & _ & Hreq & Hload).
  destruct (Hload ready_handle released_csv released_frame eq_refl eq_refl eq_refl)
    as (_ & _ & _ & Hdata).
  split; [exact Hreq|]. split; [|exact Hdata].
  exact (proj1 (proj2 (proj2 (reset_retrieves_then_installs world_cached 1 false)))).
Defined.

(** * The further properties, run *)

Lemma reset_that_cannot_load_witness :
  loaded true world1 = Raise URLError
  ∧ (reset 1 true world1).1 = Raise URLError
  ∧ heap (reset 1 true world1).2 = heap world1
  ∧ cls_index (reset 1 true world1).2 = cls_index world1.
Proof.
  split; [reflexivity|].
  exact (reset_that_cannot_load world1 1 true URLError eq_refl).
Defined.

Lemma reset_then_reset_uses_the_cache_witness :
  is_Some (archive true world_cached)
  ∧ downloads false (reset 1 true world_cached).2 = false
  ∧ requests (reset 1 false (reset 1 true world_cached).2).2
    = requests (reset 1 true world_cached).2.
Proof.
  assert (is_Some (archive true world_cached)) as Harchive
    by (eexists; reflexivity).
  split; [exact Harchive|].
  exact (reset_then_reset_uses_the_cache world_cached 1 1 true Harchive).
Defined.

Lemma constructor_never_returns_as_written_witness :
  cls_index world1 = None
  ∧ (∃ e, (new_IDCClient (Some 0) world1).1 = Raise e)
  ∧ (∀ d df, Some 0 = Some d → frame_at d world1 = Some df →
       (new_IDCClient (Some 0) world1).1 = Raise (AttributeError "index")).
Proof.
  split; [reflexivity|].
  exact (constructor_never_returns_as_written world1 (Some 0) eq_refl).
Defined.

Lemma constructor_returns_a_ready_handle_witness :
  new_IDCClient (Some 0) world1_patched
  = (Ok 4, (new_IDCClient (Some 0) world1_patched).2)
  ∧ heap world1_patched !! 4 = None
  ∧ Ready 4 (new_IDCClient (Some 0) world1_patched).2.
Proof.
  split; [reflexivity|].
  exact (constructor_returns_a_ready_handle world1_patched (Some 0) 4 _ eq_refl).
Defined.

Lemma sql_in_place_returns_iff_witness :
  client_at 1 world1_patched = Some ready_handle
  ∧ sql 1 "SELECT * FROM index" (Some 0) true world1_patched
    = (Ok 1, (sql 1 "SELECT * FROM index" (Some 0) true world1_patched).2).
Proof.
  split; [reflexivity|].
  apply (proj2 (sql_in_place_returns_iff world1_patched 1 ready_handle
                  "SELECT * FROM index" (Some 0) 1 _ eq_refl)).
  split; [reflexivity|]. split; [by eexists|].
  eexists _, _, _, _. split_and!; reflexivity.
Defined.

Lemma sql_in_place_writes_to_the_receiver_only_witness :
  client_at 1 world1 = Some ready_handle
  ∧ 0 ≠ 1
  ∧ heap world1 !! 0 = Some (ODataFrame scenario)
  ∧ heap (sql 1 "SELECT * FROM index" (Some 3) true world1).2 !! 0
    = Some (ODataFrame scenario).
Proof.
  assert (0 ≠ 1) as Hne by lia.
  split; [reflexivity|]. split; [exact Hne|]. split; [reflexivity|].
  exact (sql_in_place_writes_to_the_receiver_only world1 1 ready_handle
           "SELECT * FROM index" (Some 3) 0 (ODataFrame scenario)
           eq_refl Hne eq_refl).
Defined.

Lemma sql_in_place_keeps_ready_witness :
  Ready 1 world1
  ∧ Ready 1 (sql 1 "SELECT * FROM index" (Some 3) true world1).2.
Proof.
  split; [exact ready_handle_Ready|].
  exact (sql_in_place_keeps_ready world1 1 "SELECT * FROM index" (Some 3)
           ready_handle_Ready).
Defined.

Lemma raw_after_sql_in_place_witness :
  client_at 1 world1_patched = Some ready_handle
  ∧ sql 1 "SELECT * FROM index" (Some 0) true world1_patched
    = (Ok 1, (sql 1 "SELECT * FROM index" (Some 0) true world1_patched).2)
  ∧ ∃ d df,
      raw 1 (sql 1 "SELECT * FROM index" (Some 0) true world1_patched).2
      = (Ok d, (sql 1 "SELECT * FROM index" (Some 0) true world1_patched).2)
      ∧ heap world1_patched !! d = None
      ∧ frame_at d (sql 1 "SELECT * FROM index" (Some 0) true world1_patched).2
        = Some df
      ∧ duckdb_query world1_patched "SELECT * FROM index"
          (bound_index 1 (Some 0) world1_patched) = Some df.
Proof.
  split; [reflexivity|]. split; [reflexivity|].
  exact (raw_after_sql_in_place world1_patched 1 ready_handle
           "SELECT * FROM index" (Some 0) 1 _ eq_refl eq_refl).
Defined.

Lemma raw_after_setDataStore_witness :
  client_at 1 world1 = Some ready_handle
  ∧ (_setDataStore 1 3 world1).1 = Raise (AttributeError "index")
  ∧ raw 1 (_setDataStore 1 3 world1).2 = (Ok 3, (_setDataStore 1 3 world1).2).
Proof.
  split; [reflexivity|]. split; [reflexivity|].
  exact (raw_after_setDataStore world1 1 ready_handle 3 eq_refl).
Defined.

Lemma formatted_archive_has_a_summary_witness :
  to_float "" = None
  ∧ normalise released_csv = Ok released_frame
  ∧ "collection_id" ∈ raw_columns released_csv
  ∧ "Modality" ∈ raw_columns released_csv
  ∧ ∃ s, groupby_agg released_frame = Ok s.
Proof.
  assert ("collection_id" ∈ raw_columns released_csv) as Hcid
    by (simpl; repeat constructor).
  assert ("Modality" ∈ raw_columns released_csv) as Hmod
    by (simpl; repeat constructor).
  split; [reflexivity|]. split; [reflexivity|].
  split; [exact Hcid|]. split; [exact Hmod|].
  exact (formatted_archive_has_a_summary released_csv released_frame
           eq_refl eq_refl Hcid Hmod).
Defined.

Lemma setDataStore_twice_witness :
  client_at 1 world1_patched = Some ready_handle
  ∧ _setDataStore 1 0 (_setDataStore 1 0 world1_patched).2
    = _setDataStore 1 0 world1_patched.
Proof.
  split; [reflexivity|].
  exact (setDataStore_twice world1_patched 1 ready_handle 0 eq_refl).
Defined.

Lemma reset_writes_to_the_receiver_only_witness :
  client_at 1 world_cached = Some ready_handle
  ∧ 0 ≠ 1
  ∧ heap world_cached !! 0 = Some (ODataFrame scenario)
  ∧ heap (reset 1 true world_cached).2 !! 0 = Some (ODataFrame scenario).
Proof.
  assert (0 ≠ 1) as Hne by lia.
  split; [reflexivity|]. split; [exact Hne|]. split; [reflexivity|].
  exact (reset_writes_to_the_receiver_only world_cached 1 ready_handle true 0
           (ODataFrame scenario) eq_refl Hne eq_refl).
Defined.
